(** * fsub_extractor: the pipeline helpers of [fsub_extractor/utils/utils.py]

    A shallow embedding of the seven functions of [utils.py] and the
    properties of their externally observable behaviour: which exception
    they raise, which external tools they start and with which argument
    vectors.

    Python values are embedded as [pyval], exceptions as [exn], and the
    effects of the module (reading the environment, testing the file system,
    printing, starting a child process) as a state-and-exception monad over an
    abstract operating system [OS].  Paths and separators follow POSIX
    ([os.pathsep] is [":"], [os.path] is [posixpath]); a string is the
    sequence of its UTF-8 bytes, as [os.fsencode] gives them, which agrees
    with Python's [str] on every separator used here; indexing a string takes
    a whole character ([PyStr.first_char]). *)

From Stdlib Require Import String Ascii List ZArith Bool Arith Lia.
From Stdlib Require Import Floats.SpecFloat.
Import ListNotations.

Local Open Scope list_scope.
Local Open Scope string_scope.

(** ** Python strings *)

Module PyStr.

(** [s.split(sep)] for a one-character separator: never an empty list. *)
Fixpoint split (sep : ascii) (s : string) : list string :=
  match s with
  | EmptyString => [EmptyString]
  | String c s' =>
      if Ascii.eqb c sep then EmptyString :: split sep s'
      else match split sep s' with
           | [] => [String c EmptyString]
           | w :: ws => String c w :: ws
           end
  end.

(** Membership of a character in the character set of [strip]. *)
Fixpoint mem (c : ascii) (chars : string) : bool :=
  match chars with
  | EmptyString => false
  | String d chars' => Ascii.eqb c d || mem c chars'
  end.

Fixpoint lstrip (chars s : string) : string :=
  match s with
  | EmptyString => EmptyString
  | String c s' => if mem c chars then lstrip chars s' else s
  end.

Fixpoint rstrip (chars s : string) : string :=
  match s with
  | EmptyString => EmptyString
  | String c s' =>
      match rstrip chars s' with
      | EmptyString => if mem c chars then EmptyString else String c EmptyString
      | r => String c r
      end
  end.

(** [s.strip(chars)]. *)
Definition strip (chars s : string) : string := rstrip chars (lstrip chars s).

(** [s.startswith(p)] and [s.endswith(p)]. *)
Definition startswith (s p : string) : bool := String.prefix p s.

Definition endswith (s p : string) : bool :=
  (String.length p <=? String.length s)%nat
  && String.eqb (substring (String.length s - String.length p) (String.length p) s) p.

(** [s[-n:]] for [n > 0]: the last [n] characters, the whole of a shorter
    string. *)
Definition slice_last (n : nat) (s : string) : string :=
  substring (String.length s - n) n s.

(** [s[:-n]] for [n > 0]. *)
Definition slice_drop_last (n : nat) (s : string) : string :=
  substring 0 (String.length s - n) s.

(** [s.removesuffix(suffix)]. *)
Definition removesuffix (s suffix : string) : string :=
  if negb (String.length suffix =? 0)%nat && endswith s suffix
  then slice_drop_last (String.length suffix) s
  else s.

(** [s.replace(old, new)] for a non-empty [old]: occurrences are replaced
    left to right without overlap; [skip] counts the characters of a
    matched occurrence still to be dropped. *)
Fixpoint replace_from (old new : string) (skip : nat) (s : string) : string :=
  match s with
  | EmptyString => EmptyString
  | String c s' =>
      match skip with
      | S k => replace_from old new k s'
      | O =>
          if String.prefix old s
          then new ++ replace_from old new (String.length old - 1) s'
          else String c (replace_from old new 0 s')
      end
  end.

(** [s.replace("", new)]: [new] before every character and at the end. *)
Fixpoint intersperse (new s : string) : string :=
  match s with
  | EmptyString => new
  | String c s' => new ++ String c (intersperse new s')
  end.

Definition replace (s old new : string) : string :=
  match old with
  | EmptyString => intersperse new s
  | _ => replace_from old new 0 s
  end.

(** One step of [posixpath.join]: an absolute component restarts the path,
    otherwise it is appended, with a ["/"] unless the path is empty or
    already ends in one. *)
Definition join_step (path b : string) : string :=
  if startswith b "/" then b
  else if (String.length path =? 0)%nat || endswith path "/" then path ++ b
  else path ++ "/" ++ b.

(** [os.path.join(a, *p)]. *)
Definition join (a : string) (p : list string) : string :=
  fold_left join_step p a.

(** The byte [c] lies between [lo] and [hi]. *)
Definition in_range (lo hi : nat) (c : ascii) : bool :=
  (lo <=? nat_of_ascii c)%nat && (nat_of_ascii c <=? hi)%nat.

(** A continuation byte of UTF-8. *)
Definition continuation (c : ascii) : bool := in_range 128 191 c.

(** The number of bytes of the first character of [s]: the length of the
    well-formed UTF-8 sequence [s] starts with, and 1 for a byte that starts
    none, which [os.fsdecode] turns into a character of its own. *)
Definition first_char_length (s : string) : nat :=
  match s with
  | EmptyString => 0
  | String b0 s1 =>
      if in_range 0 127 b0 then 1
      else
        match s1 with
        | EmptyString => 1
        | String b1 s2 =>
            if in_range 194 223 b0 && continuation b1 then 2
            else
              match s2 with
              | EmptyString => 1
              | String b2 s3 =>
                  if (in_range 224 224 b0 && in_range 160 191 b1
                      || in_range 225 236 b0 && continuation b1
                      || in_range 237 237 b0 && in_range 128 159 b1
                      || in_range 238 239 b0 && continuation b1)
                     && continuation b2
                  then 3
                  else
                    match s3 with
                    | EmptyString => 1
                    | String b3 _ =>
                        if (in_range 240 240 b0 && in_range 144 191 b1
                            || in_range 241 243 b0 && continuation b1
                            || in_range 244 244 b0 && in_range 128 143 b1)
                           && continuation b2 && continuation b3
                        then 4
                        else 1
                    end
              end
        end
  end.

(** [s[0]] for a non-empty [s]: the first character, not the first byte. *)
Definition first_char (s : string) : string := substring 0 (first_char_length s) s.

End PyStr.

(** ** Python values, exceptions and effects *)

(** The values that flow through [utils.py]: [None], strings, floats (the
    documented type of [search_dist]) and lists of values (command lists). *)
#[warnings="-register-all"] Inductive pyval : Type :=
| PNone
| PStr (s : string)
| PFloat (f : spec_float)
| PList (l : list pyval).

(** [type(v).__name__], as Python's error messages print it. *)
Definition type_name (v : pyval) : string :=
  match v with
  | PNone => "NoneType"
  | PStr _ => "str"
  | PFloat _ => "float"
  | PList _ => "list"
  end.

Inductive exn : Type :=
| SystemExit (msg : string)
| NameError (name : string)
| KeyError (key : string)
| IndexError (msg : string)
| TypeError (msg : string)
| ValueError (msg : string)
| PyException (msg : string)
| OSError (errno : Z).

(** What the module does to the outside: lines printed and child processes
    run to completion, in order. *)
Inductive event : Type :=
| EvPrint (line : string)
| EvSpawn (argv : list string).

(** The outcome of starting a child process and waiting for it: the exit
    status of a process that ran (negative when a signal ended it), or the
    [errno] of a process that could not be started ([FileNotFoundError],
    [PermissionError] and the other [OSError]s). *)
Inductive spawned : Type :=
| Exited (returncode : Z)
| NotStarted (errno : Z).

(** The operating system as the module sees it.  The environment of the
    Python process is fixed; the file system is part of a [world] that every
    child process may change. *)
Record OS : Type := {
  world : Type;
  environ : string -> option string;
  path_exists : world -> string -> bool;
  access_X_OK : world -> string -> bool;
  path_isdir : world -> string -> bool;
  spawn : world -> list string -> spawned * world
}.

Inductive result (A : Type) : Type :=
| Ok (a : A)
| Raise (e : exn).

Arguments Ok {A} a.
Arguments Raise {A} e.

Declare Scope py_scope.
Delimit Scope py_scope with py.

Section Pipeline.

Context (os : OS).

Record state : Type := { st_world : world os; st_trace : list event }.

Definition M (A : Type) : Type := state -> result A * state.

Definition ret {A} (a : A) : M A := fun st => (Ok a, st).

Definition raise {A} (e : exn) : M A := fun st => (Raise e, st).

Definition bind {A B} (c : M A) (k : A -> M B) : M B :=
  fun st =>
    match c st with
    | (Ok a, st') => k a st'
    | (Raise e, st') => (Raise e, st')
    end.

Notation "x <- c ;; k" := (bind c (fun x => k))
  (at level 61, c at next level, right associativity) : py_scope.
Notation "c ;;; k" := (bind c (fun _ => k))
  (at level 61, right associativity) : py_scope.

Local Open Scope py_scope.

Definition emit (e : event) : M unit :=
  fun st => (Ok tt, {| st_world := st_world st; st_trace := (st_trace st ++ [e])%list |}).

(** [print(line)]. *)
Definition print (line : string) : M unit := emit (EvPrint line).

(** [os.environ[key]]. *)
Definition environ_get (key : string) : M string :=
  match environ os key with
  | Some v => ret v
  | None => raise (KeyError key)
  end.

Definition exists_ (p : string) : M bool :=
  fun st => (Ok (path_exists os (st_world st) p), st).

Definition access_x (p : string) : M bool :=
  fun st => (Ok (access_X_OK os (st_world st) p), st).

Definition isdir (p : string) : M bool :=
  fun st => (Ok (path_isdir os (st_world st) p), st).

(** A [for] loop whose body may [return]: the body answers [Some v] to
    return [v] from the enclosing function, [None] to go on. *)
Fixpoint for_in {A R} (xs : list A) (body : A -> M (option R)) : M (option R) :=
  match xs with
  | [] => ret None
  | x :: xs' =>
      r <- body x ;;
      match r with
      | Some v => ret (Some v)
      | None => for_in xs' body
      end
  end.

(** The argument vector handed to the kernel, converted element by element:
    every element must be a string ([bytes] and path objects do not occur in
    this module) without a NUL character. *)
Fixpoint fsencode_all (l : list pyval) : exn + list string :=
  match l with
  | [] => inr []
  | PStr s :: l' =>
      if PyStr.mem "000" s then inl (ValueError "embedded null byte")
      else
        match fsencode_all l' with
        | inr argv => inr (s :: argv)
        | inl e => inl e
        end
  | v :: _ =>
      inl (TypeError ("expected str, bytes or os.PathLike object, not " ++ type_name v))
  end.

Definition exec (argv : list string) : M Z :=
  fun st =>
    match spawn os (st_world st) argv with
    | (Exited code, w') =>
        (Ok code, {| st_world := w'; st_trace := (st_trace st ++ [EvSpawn argv])%list |})
    | (NotStarted errno, w') =>
        (Raise (OSError errno), {| st_world := w'; st_trace := st_trace st |})
    end.

(** The argument vector [subprocess.run(args)] builds without
    [shell=True]: a string is the program alone, a list is the vector, whose
    first element names the program. *)
Definition popen_args (args : pyval) : exn + list string :=
  match args with
  | PStr s => fsencode_all [PStr s]
  | PList [] => inl (IndexError "list index out of range")
  | PList l => fsencode_all l
  | v => inl (TypeError ("'" ++ type_name v ++ "' object is not iterable"))
  end.

(** [subprocess.run(args).returncode]. *)
Definition subprocess_run (args : pyval) : M Z :=
  match popen_args args with
  | inr argv => exec argv
  | inl e => raise e
  end.

(** [v[0]]. *)
Definition getitem0 (v : pyval) : M pyval :=
  match v with
  | PList [] => raise (IndexError "list index out of range")
  | PList (x :: _) => ret x
  | PStr EmptyString => raise (IndexError "string index out of range")
  | PStr (String c t) => ret (PStr (PyStr.first_char (String c t)))
  | v => raise (TypeError ("'" ++ type_name v ++ "' object is not subscriptable"))
  end.

(** [l[-1]]. *)
Definition getitem_last {A} (l : list A) : M A :=
  match rev l with
  | [] => raise (IndexError "list index out of range")
  | x :: _ => ret x
  end.

(** [s + v] for a string [s]. *)
Definition str_add (s : string) (v : pyval) : M string :=
  match v with
  | PStr t => ret (s ++ t)
  | v => raise (TypeError ("can only concatenate str (not " ++ String "034" (type_name v)
                            ++ String "034" ") to str"))
  end.

(** ** The functions of [utils.py] *)

(** The nested helper of [find_program]. *)
Definition is_exe (fpath : string) : M bool :=
  e <- exists_ fpath ;;
  if e then access_x fpath else ret false.

(** Reading a name that is bound neither in the function, nor at module
    level ([op], [os], [shutil], [subprocess] and the seven functions), nor
    among the builtins. *)
Definition unbound_name (name : string) : M pyval := raise (NameError name).

(** [find_program(program)].  In the [else] branch the message of the
    [SystemExit] is built from [function_name], which is not a name of this
    function. *)
Definition find_program (program : string) : M pyval :=
  path_var <- environ_get "PATH" ;;
  let path_split := PyStr.split ":" path_var in
  if (List.length path_split =? 0)%nat
  then raise (SystemExit "PATH environment variable is empty.")
  else
    r <- for_in path_split (fun path =>
           let path := PyStr.strip (String "034" EmptyString) path in
           let exe_file := PyStr.join path [program] in
           b <- is_exe exe_file ;;
           if b then ret (Some (PStr program))
           else
             function_name <- unbound_name "function_name" ;;
             m <- str_add "Command " function_name ;;
             raise (SystemExit (m ++ " could not be found in PATH."))) ;;
    match r with
    | Some v => ret v
    | None => ret PNone
    end.

(** [run_command(cmd_list)]. *)
Definition run_command (cmd_list : pyval) : M pyval :=
  function_name <- getitem0 cmd_list ;;
  return_code <- subprocess_run cmd_list ;;
  if negb (return_code =? 0)%Z
  then
    m <- str_add "Command " function_name ;;
    raise (SystemExit (m ++ " exited with errors. See message above for more information."))
  else ret PNone.


(** [merge_rois(roi1, roi2, outpath_base)].  [out_file] is not a name of
    this function; [outpath_base] is not read. *)
Definition merge_rois (roi1 roi2 outpath_base : string) : M pyval :=
  let labelled_roi2 := PyStr.removesuffix roi2 ".nii.gz" ++ "_labelled.nii.gz" in
  mrcalc <- find_program "mrcalc" ;;
  let cmd_mrcalc_mult :=
    PList [mrcalc; PStr roi2; PStr "2"; PStr "-mult"; PStr labelled_roi2] in
  run_command cmd_mrcalc_mult ;;;
  out_file <- unbound_name "out_file" ;;
  let cmd_mrcalc_merge :=
    PList [mrcalc; PStr roi1; PStr labelled_roi2; PStr "-add"; out_file] in
  run_command cmd_mrcalc_merge ;;;
  ret PNone.

(** [anat_to_gmwmi(anat, outpath_base)]. *)
Definition anat_to_gmwmi (anat outpath_base : string) : M pyval :=
  d <- isdir (PyStr.join anat ["surf"]) ;;
  fivett_algo <-
    (if d then
       print "FreeSurfer input detected: Using 5ttgen HSVS algorithm to generate GMWMI" ;;;
       ret "hsvs"
     else if String.eqb (PyStr.slice_last 7 anat) ".nii.gz"
             || String.eqb (PyStr.slice_last 4 anat) ".nii"
             || String.eqb (PyStr.slice_last 4 anat) ".mif" then
       print "T1 image detected: Using default FSL 5ttgen algorithm to generate GMWMWI" ;;;
       ret "fsl"
     else
       raise (PyException "Neither T1 or FreeSurfer input detected; Unable to create GMWMI")) ;;
  print "Generating 5TT Image" ;;;
  fivettgen <- find_program "5ttgen" ;;
  let cmd_5ttgen :=
    PList [fivettgen; PStr fivett_algo; PStr anat;
           PStr (outpath_base ++ "5tt.nii.gz"); PStr "-nocrop"] in
  run_command cmd_5ttgen ;;;
  print "Generating GMWMI Image" ;;;
  fivett2gmwmi <- find_program "5tt2gmwmi" ;;
  let cmd_5tt2gmwmi :=
    PList [fivett2gmwmi; PStr (outpath_base ++ "5tt.nii.gz");
           PStr (outpath_base ++ "gmwmi.nii.gz")] in
  run_command cmd_5tt2gmwmi ;;;
  print "Finished creating GMWMI" ;;;
  ret PNone.

(** [extract_tck_mrtrix(tck_file, rois_in, outpath_base, search_dist,
    two_rois)].  [search_dist] goes into the command list as it is. *)
Definition extract_tck_mrtrix (tck_file rois_in outpath_base : string)
    (search_dist : pyval) (two_rois : bool) : M pyval :=
  tck2connectome <- find_program "tck2connectome" ;;
  let tck2connectome_cmd :=
    PList [tck2connectome; PStr tck_file; PStr rois_in;
           PStr (outpath_base ++ "connectome.txt");
           PStr "-assignment_forward_search"; search_dist;
           PStr "-out_assignments"; PStr (outpath_base ++ "assignments.txt");
           PStr "-force"] in
  run_command tck2connectome_cmd ;;;
  connectome2tck <- find_program "connectome2tck" ;;
  let nodes := if two_rois then "1,2" else "0,1" in
  let connectome2tck_cmd :=
    PList [connectome2tck; PStr tck_file;
           PStr (outpath_base ++ "assignments.txt");
           PStr (outpath_base ++ "extracted");
           PStr "-nodes"; PStr nodes; PStr "-exclusive"; PStr "-files";
           PStr "single"] in
  run_command connectome2tck_cmd ;;;
  ret PNone.

(** [dilate_roi(roi_in, fs_dir, hemi, outpath_base)].  The last call hands
    [run_command] the name [mri_surf2vol], the result of [find_program], and
    not the list [mri_surf2vol_cmd] built on the line before. *)
Definition dilate_roi (roi_in fs_dir hemi outpath_base : string) : M pyval :=
  subject <- getitem_last (PyStr.split "/" fs_dir) ;;
  roi_file_extension <- getitem_last (PyStr.split "." roi_in) ;;
  roi_surf <-
    (if negb (String.eqb roi_file_extension "label")
        && negb (String.eqb roi_file_extension "mgz") then
       print "Using volumetric ROI dilation pipeline" ;;;
       let roi_surf := PyStr.replace roi_in roi_file_extension ".mgz" in
       mri_vol2surf <- find_program "mri_vol2surf" ;;
       let mri_vol2surf_cmd :=
         PList [mri_vol2surf; PStr "--src"; PStr roi_in; PStr "--projfrac-max";
                PStr "-.5 1 .1"; PStr "--out"; PStr roi_surf; PStr "--regheader";
                PStr subject; PStr "--hemi"; PStr hemi] in
       run_command mri_vol2surf_cmd ;;;
       ret roi_surf
     else
       let roi_surf := roi_in in
       print "Starting with surface ROI" ;;;
       ret roi_surf) ;;
  mri_surf2vol <- find_program "mri_surf2vol" ;;
  let mri_surf2vol_cmd :=
    PList [mri_surf2vol; PStr "--surfval"; PStr roi_surf; PStr "--o"; PStr roi_in;
           PStr "--subject"; PStr subject; PStr "--fill-projfrac";
           PStr "-2 0 0.05"; PStr "--hemi"; PStr hemi; PStr "--template";
           PStr (PyStr.join fs_dir ["mri"; "aseg.mgz"]); PStr "--identity";
           PStr subject] in
  run_command mri_surf2vol ;;;
  ret PNone.

(** [intersect_gmwmi(rois_in, gmwmi, outpath_base)].  [mrcalc_path] is not
    a name of this function; the local is [mrcalc]. *)
Definition intersect_gmwmi (rois_in gmwmi outpath_base : string) : M pyval :=
  mrcalc <- find_program "mrcalc" ;;
  mrcalc_path <- unbound_name "mrcalc_path" ;;
  let mrcalc_cmd :=
    PList [mrcalc_path; PStr rois_in; PStr gmwmi; PStr "-mult";
           PStr (outpath_base ++ "gmwmi_roi_intersect.nii.gz")] in
  run_command mrcalc_cmd ;;;
  ret PNone.

End Pipeline.

Arguments Build_state {os} _ _.
Arguments st_world {os} _.
Arguments st_trace {os} _.

(** ** Vocabulary of the statements *)

(** A run that starts with an empty log. *)
Definition boot (os : OS) (w : world os) : state os :=
  {| st_world := w; st_trace := [] |}.

(** The state of a run in the world [w] that has logged [log]. *)
Definition after (os : OS) (w : world os) (log : list event) : state os :=
  {| st_world := w; st_trace := log |}.

(** [s] ends in [suffix]. *)
Definition ends_in (s suffix : string) : Prop := exists p, s = p ++ suffix.

(** [fpath] exists and may be executed, in the world [w]. *)
Definition executable (os : OS) (w : world os) (fpath : string) : bool :=
  path_exists os w fpath && access_X_OK os w fpath.

(** The file a directory entry of the search path stands for. *)
Definition candidate (dir program : string) : string :=
  PyStr.join (PyStr.strip (String "034" EmptyString) dir) [program].

(** [program] is executable in the first directory of the search path. *)
Definition on_first_dir (os : OS) (w : world os) (program : string) : bool :=
  match environ os "PATH" with
  | Some p => executable os w (candidate (hd EmptyString (PyStr.split ":" p)) program)
  | None => false
  end.

(** [program] is executable in some directory of the search path. *)
Definition on_some_dir (os : OS) (w : world os) (program : string) : bool :=
  match environ os "PATH" with
  | Some p => existsb (fun dir => executable os w (candidate dir program)) (PyStr.split ":" p)
  | None => false
  end.

(** The message of [run_command]'s [SystemExit]. *)
Definition exited_with_errors (name : string) : string :=
  "Command " ++ name ++ " exited with errors. See message above for more information.".

(** The argument vectors the spec gives for the tools. *)
Definition tck2connectome_argv (tck_file rois_in outpath_base search_dist : string)
  : list string :=
  ["tck2connectome"; tck_file; rois_in; outpath_base ++ "connectome.txt";
   "-assignment_forward_search"; search_dist; "-out_assignments";
   outpath_base ++ "assignments.txt"; "-force"].

Definition connectome2tck_argv (tck_file outpath_base nodes : string) : list string :=
  ["connectome2tck"; tck_file; outpath_base ++ "assignments.txt";
   outpath_base ++ "extracted"; "-nodes"; nodes; "-exclusive"; "-files"; "single"].

Definition fivettgen_argv (algo anat outpath_base : string) : list string :=
  ["5ttgen"; algo; anat; outpath_base ++ "5tt.nii.gz"; "-nocrop"].

Definition mrcalc_mult2_argv (roi2 : string) : list string :=
  ["mrcalc"; roi2; "2"; "-mult"; PyStr.removesuffix roi2 ".nii.gz" ++ "_labelled.nii.gz"].

Definition mri_surf2vol_argv (roi_surf roi_in subject hemi fs_dir : string) : list string :=
  ["mri_surf2vol"; "--surfval"; roi_surf; "--o"; roi_in; "--subject"; subject;
   "--fill-projfrac"; "-2 0 0.05"; "--hemi"; hemi; "--template";
   PyStr.join fs_dir ["mri"; "aseg.mgz"]; "--identity"; subject].

(** The line [anat_to_gmwmi] prints when it settles on an algorithm. *)
Definition banner (algo : string) : string :=
  if String.eqb algo "hsvs"
  then "FreeSurfer input detected: Using 5ttgen HSVS algorithm to generate GMWMI"
  else "T1 image detected: Using default FSL 5ttgen algorithm to generate GMWMWI".

(** [anat_to_gmwmi] selects [algo]: it announces it before anything else and,
    when [5ttgen] is found and starts, that is the algorithm [5ttgen] is
    started with, as the first child process. *)
Definition selects (os : OS) (algo anat outpath_base : string) (st : state os)
    (out : result pyval * state os) : Prop :=
  exists rest,
    st_trace (snd out)
    = (st_trace st ++ EvPrint (banner algo) :: EvPrint "Generating 5TT Image" :: rest)%list
    /\ (forall code w',
          on_first_dir os (st_world st) "5ttgen" = true ->
          spawn os (st_world st) (fivettgen_argv algo anat outpath_base) = (Exited code, w') ->
          PyStr.mem "000" anat = false ->
          PyStr.mem "000" outpath_base = false ->
          exists rest', rest = EvSpawn (fivettgen_argv algo anat outpath_base) :: rest').

(** The steps of [anat_to_gmwmi] that follow the choice of the algorithm. *)
Definition gmwmi_steps (os : OS) (fivett_algo anat outpath_base : string) : M os pyval :=
  bind os (print os "Generating 5TT Image") (fun _ =>
  bind os (find_program os "5ttgen") (fun fivettgen =>
  bind os (run_command os
             (PList [fivettgen; PStr fivett_algo; PStr anat;
                     PStr (outpath_base ++ "5tt.nii.gz"); PStr "-nocrop"])) (fun _ =>
  bind os (print os "Generating GMWMI Image") (fun _ =>
  bind os (find_program os "5tt2gmwmi") (fun fivett2gmwmi =>
  bind os (run_command os
             (PList [fivett2gmwmi; PStr (outpath_base ++ "5tt.nii.gz");
                     PStr (outpath_base ++ "gmwmi.nii.gz")])) (fun _ =>
  bind os (print os "Finished creating GMWMI") (fun _ =>
  ret os PNone))))))).

(** A computation only ever adds to the log, and only events that satisfy
    [P]. *)
Definition logs_only {os : OS} {A : Type} (P : event -> Prop) (c : M os A) : Prop :=
  forall st,
    exists new, st_trace (snd (c st)) = (st_trace st ++ new)%list /\ Forall P new.

(** A child process started under the name [mri_surf2vol] that was given no
    argument. *)
Definition bare_surf2vol (ev : event) : Prop :=
  forall argv,
    ev = EvSpawn argv -> hd_error argv = Some "mri_surf2vol" -> argv = ["mri_surf2vol"].

(** The test of [anat_to_gmwmi] for a volume: the three slice comparisons. *)
Definition volume_extension (anat : string) : bool :=
  String.eqb (PyStr.slice_last 7 anat) ".nii.gz"
  || String.eqb (PyStr.slice_last 4 anat) ".nii"
  || String.eqb (PyStr.slice_last 4 anat) ".mif".

(** ** Machines for the worked cases *)

(** A machine with a fixed file system: [installed] files are executable,
    [directory] paths are directories, and a child process ends as [status]
    says. *)
Definition machine (path_var : option string) (installed directory : string -> bool)
    (status : list string -> spawned) : OS :=
  {| world := unit;
     environ := fun key => if String.eqb key "PATH" then path_var else None;
     path_exists := fun _ p => installed p || directory p;
     access_X_OK := fun _ p => installed p || directory p;
     path_isdir := fun _ p => directory p;
     spawn := fun w argv => (status argv, w) |}.

(** MRtrix lives in the second directory of the search path. *)
Definition mrtrix_second : OS :=
  machine (Some "/usr/local/bin:/usr/bin")
          (fun p => String.eqb p "/usr/bin/mrcalc")
          (fun _ => false)
          (fun _ => Exited 0).

(** The search-path variable is set and empty. *)
Definition empty_path : OS :=
  machine (Some EmptyString) (fun _ => false) (fun _ => false) (fun _ => Exited 0).

(** Every tool lives in the first directory of the search path and ends with
    the status [code]. *)
Definition tools_first (code : Z) : OS :=
  machine (Some "/opt/tools/bin:/usr/bin")
          (fun p => String.prefix "/opt/tools/bin/" p)
          (fun _ => false)
          (fun _ => Exited code).

(** As [tools_first 0], and [sub-01.nii] is a FreeSurfer subject directory. *)
Definition freesurfer_nii : OS :=
  machine (Some "/opt/tools/bin:/usr/bin")
          (fun p => String.prefix "/opt/tools/bin/" p)
          (fun p => String.eqb p "sub-01.nii" || String.eqb p "sub-01.nii/surf")
          (fun _ => Exited 0).

(** As [tools_first 0], but a tool started without arguments prints its usage
    and ends with status 1. *)
Definition usage_on_no_arguments : OS :=
  machine (Some "/opt/tools/bin:/usr/bin")
          (fun p => String.prefix "/opt/tools/bin/" p)
          (fun _ => false)
          (fun argv => match argv with [_] => Exited 1 | _ => Exited 0 end).

(** The binary64 number [2.0]. *)
Definition two_point_zero : spec_float := S754_finite false 4503599627370496 (-51).

(** ** Further vocabulary *)

(** The value is a string. *)
Definition is_str (v : pyval) : bool :=
  match v with
  | PStr _ => true
  | _ => false
  end.

(** [roi_in.split('.')[-1]]: the last dot-separated component of a name,
    the whole name when it has no dot. *)
Definition extension (roi_in : string) : option string :=
  hd_error (rev (PyStr.split "." roi_in)).

(** The event is not the start of a child process. *)
Definition no_spawn (ev : event) : Prop := forall argv, ev <> EvSpawn argv.

(** The event is not the start of [mri_vol2surf]. *)
Definition no_vol2surf (ev : event) : Prop :=
  forall argv, ev = EvSpawn argv -> hd_error argv <> Some "mri_vol2surf".

(** The argument vectors of the remaining tools. *)
Definition fivett2gmwmi_argv (outpath_base : string) : list string :=
  ["5tt2gmwmi"; outpath_base ++ "5tt.nii.gz"; outpath_base ++ "gmwmi.nii.gz"].


(** The algorithm [anat_to_gmwmi] settles on, when it settles on one. *)
Definition chosen_algorithm (os : OS) (w : world os) (anat : string) : option string :=
  if path_isdir os w (PyStr.join anat ["surf"]) then Some "hsvs"
  else if volume_extension anat then Some "fsl"
  else None.

(** The external tools of the module. *)
Definition tools : list string :=
  ["mrcalc"; "5ttgen"; "5tt2gmwmi"; "tck2connectome"; "connectome2tck";
   "mri_vol2surf"; "mri_surf2vol"].

(** A child process, if the event is one, was started under the bare name
    of one of the tools. *)
Definition starts_tool_by_name (ev : event) : Prop :=
  forall argv, ev = EvSpawn argv -> exists tool, In tool tools /\ hd_error argv = Some tool.

(** The search-path variable is not set. *)
Definition no_path : OS :=
  machine None (fun _ => false) (fun _ => false) (fun _ => Exited 0).

(** As [tools_first], but no program can be started: the kernel answers
    [ENOENT]. *)
Definition cannot_start : OS :=
  machine (Some "/opt/tools/bin:/usr/bin")
          (fun p => String.prefix "/opt/tools/bin/" p)
          (fun _ => false)
          (fun _ => NotStarted 2).

(** The tools are installed under their absolute names only; the first
    directory of the search path is empty. *)
Definition absolute_only : OS :=
  machine (Some "/usr/local/bin:/usr/bin")
          (fun p => String.eqb p "/opt/mrtrix3/bin/mrcalc")
          (fun _ => false)
          (fun _ => Exited 0).

(** The search path starts with an empty entry, and [mrcalc] is an
    executable of the current directory. *)
Definition cwd_first : OS :=
  machine (Some ":/usr/bin")
          (fun p => String.eqb p "mrcalc")
          (fun _ => false)
          (fun _ => Exited 0).


(** As [tools_first 0], but [failing] ends with status 1. *)
Definition one_tool_fails (failing : string) : OS :=
  machine (Some "/opt/tools/bin:/usr/bin")
          (fun p => String.prefix "/opt/tools/bin/" p)
          (fun _ => false)
          (fun argv => if String.eqb (hd EmptyString argv) failing then Exited 1 else Exited 0).

(** ** The string operations on the paths of the pipeline *)

Example split_path :
  PyStr.split ":" "/usr/local/bin:/usr/bin" = ["/usr/local/bin"; "/usr/bin"].
Proof. reflexivity. Qed.

Example split_empty : PyStr.split ":" EmptyString = [EmptyString].
Proof. reflexivity. Qed.

Example split_trailing : PyStr.split "." "roi." = ["roi"; EmptyString].
Proof. reflexivity. Qed.

Example strip_quotes :
  PyStr.strip (String "034" EmptyString) (String "034" ("/opt/bin" ++ String "034" EmptyString))
  = "/opt/bin".
Proof. reflexivity. Qed.

Example join_plain : PyStr.join "/usr/bin" ["mrcalc"] = "/usr/bin/mrcalc".
Proof. reflexivity. Qed.

Example join_empty_dir : PyStr.join EmptyString ["mrcalc"] = "mrcalc".
Proof. reflexivity. Qed.

Example join_three :
  PyStr.join "/subjects/sub01" ["mri"; "aseg.mgz"] = "/subjects/sub01/mri/aseg.mgz".
Proof. reflexivity. Qed.

Example removesuffix_nii :
  PyStr.removesuffix "R2.nii.gz" ".nii.gz" = "R2".
Proof. reflexivity. Qed.

Example removesuffix_other :
  PyStr.removesuffix "R2.mif" ".nii.gz" = "R2.mif".
Proof. reflexivity. Qed.

Example replace_ext :
  PyStr.replace "roi.nii.gz" "gz" ".mgz" = "roi.nii..mgz".
Proof. reflexivity. Qed.

Example replace_all :
  PyStr.replace "aXXbXXXc" "XX" "-" = "a-b-Xc".
Proof. reflexivity. Qed.

Example slice_last_short : PyStr.slice_last 7 "a.nii" = "a.nii".
Proof. reflexivity. Qed.

Example slice_last_long : PyStr.slice_last 4 "brain.nii" = ".nii".
Proof. reflexivity. Qed.

(** ** Strings *)

Lemma split_not_nil (sep : ascii) (s : string) : PyStr.split sep s <> [].
Proof.
  induction s as [|c s IH]; simpl; [discriminate|].
  destruct (Ascii.eqb c sep); [discriminate|].
  destruct (PyStr.split sep s); discriminate.
Qed.

Lemma split_length_nonzero (sep : ascii) (s : string) :
  (List.length (PyStr.split sep s) =? 0)%nat = false.
Proof.
  destruct (PyStr.split sep s) eqn:E; [now apply split_not_nil in E | reflexivity].
Qed.

Lemma substring_whole (s : string) (m : nat) :
  String.length s <= m -> substring 0 m s = s.
Proof.
  revert m; induction s as [|c s IH]; intros [|m] H; simpl in *; try reflexivity; try lia.
  f_equal; apply IH; lia.
Qed.

Lemma substring_cut (s : string) (k m : nat) :
  String.length s <= k + m -> substring 0 k s ++ substring k m s = s.
Proof.
  revert k m; induction s as [|c s IH]; intros k m H.
  - destruct k, m; reflexivity.
  - destruct k as [|k].
    + change (substring 0 0 (String c s)) with EmptyString.
      cbn [append]. apply substring_whole. simpl in *; lia.
    + simpl. f_equal. apply IH. simpl in H; lia.
Qed.

Lemma substring_after (p s : string) :
  substring (String.length p) (String.length s) (p ++ s) = s.
Proof.
  induction p as [|c p IH]; simpl; [apply substring_whole; lia | exact IH].
Qed.

Lemma length_append (p s : string) :
  String.length (p ++ s) = String.length p + String.length s.
Proof. induction p as [|c p IH]; simpl; [reflexivity | now rewrite IH]. Qed.

(** Comparing the slice [s[-n:]] with a string of [n] characters is the test
    that [s] ends in that string. *)
Lemma slice_last_ends_in (s suffix : string) :
  String.eqb (PyStr.slice_last (String.length suffix) s) suffix = true
  <-> ends_in s suffix.
Proof.
  unfold PyStr.slice_last, ends_in; rewrite String.eqb_eq; split.
  - intros H.
    exists (substring 0 (String.length s - String.length suffix) s).
    rewrite <- H at 2. symmetry; apply substring_cut; lia.
  - intros [p ->]. rewrite length_append.
    replace (String.length p + String.length suffix - String.length suffix)
      with (String.length p) by lia.
    apply substring_after.
Qed.

Lemma substring_before (p s : string) :
  substring 0 (String.length p) (p ++ s) = p.
Proof.
  induction p as [|c p IH]; simpl; [now destruct s | now rewrite IH].
Qed.

(** Removing a suffix that is there gives back what precedes it. *)
Lemma removesuffix_append (p suffix : string) :
  suffix <> EmptyString -> PyStr.removesuffix (p ++ suffix) suffix = p.
Proof.
  intros Hne. unfold PyStr.removesuffix, PyStr.endswith, PyStr.slice_drop_last.
  rewrite length_append.
  replace (String.length p + String.length suffix - String.length suffix)
    with (String.length p) by lia.
  rewrite substring_after, String.eqb_refl, substring_before.
  destruct suffix as [|c suffix]; [contradiction|].
  simpl negb. replace (_ <=? _)%nat with true; [reflexivity|].
  symmetry; apply Nat.leb_le; lia.
Qed.

Lemma mem_substring (c : ascii) (s : string) (n m : nat) :
  PyStr.mem c s = false -> PyStr.mem c (substring n m s) = false.
Proof.
  revert n m; induction s as [|a s IH]; intros [|n] [|m] H; simpl in *; try reflexivity;
    try assumption.
  - apply orb_false_iff in H as [Ha Hs]. now rewrite Ha, IH.
  - apply orb_false_iff in H as [Ha Hs]. now apply IH.
  - apply orb_false_iff in H as [Ha Hs]. now apply IH.
Qed.

Lemma mem_removesuffix (c : ascii) (s suffix : string) :
  PyStr.mem c s = false -> PyStr.mem c (PyStr.removesuffix s suffix) = false.
Proof.
  intros H. unfold PyStr.removesuffix, PyStr.slice_drop_last.
  destruct (_ && _); [now apply mem_substring | assumption].
Qed.

Lemma mem_append (c : ascii) (p s : string) :
  PyStr.mem c (p ++ s) = PyStr.mem c p || PyStr.mem c s.
Proof.
  induction p as [|d p IH]; simpl; [reflexivity|].
  now rewrite IH, orb_assoc.
Qed.

(** ** Closed forms of the locator and the runner *)

Section Facts.

Context (os : OS).

Lemma bind_ok {A B} {c : M os A} {k : A -> M os B} {st st' : state os} {a : A} :
  c st = (Ok a, st') -> bind os c k st = k a st'.
Proof. unfold bind; now intros ->. Qed.

Lemma bind_raise {A B} {c : M os A} {k : A -> M os B} {st st' : state os} {e : exn} :
  c st = (Raise e, st') -> bind os c k st = (Raise e, st').
Proof. unfold bind; now intros ->. Qed.

(** [find_program] in closed form: only the first entry of the search path
    is ever tried, and the state is left as it was. *)
Lemma find_program_eq (program : string) (st : state os) :
  find_program os program st =
  match environ os "PATH" with
  | None => (Raise (KeyError "PATH"), st)
  | Some p =>
      if executable os (st_world st) (candidate (hd EmptyString (PyStr.split ":" p)) program)
      then (Ok (PStr program), st)
      else (Raise (NameError "function_name"), st)
  end.
Proof.
  unfold find_program, environ_get, bind.
  destruct (environ os "PATH") as [p|]; [|reflexivity].
  unfold ret at 1. rewrite split_length_nonzero.
  destruct (PyStr.split ":" p) as [|d ds] eqn:E; [now apply split_not_nil in E|].
  simpl hd. unfold executable, candidate.
  cbn [for_in]. unfold bind, is_exe, bind, exists_, access_x, ret, unbound_name, raise.
  destruct (path_exists os (st_world st) _); simpl.
  - destruct (access_X_OK os (st_world st) _); reflexivity.
  - reflexivity.
Qed.

Lemma find_program_found (program : string) (st : state os) :
  on_first_dir os (st_world st) program = true ->
  find_program os program st = (Ok (PStr program), st).
Proof.
  unfold on_first_dir; intros H. rewrite find_program_eq.
  destruct (environ os "PATH"); [now rewrite H | discriminate].
Qed.

Lemma find_program_first_miss (program : string) (st : state os) (p : string) :
  environ os "PATH" = Some p ->
  on_first_dir os (st_world st) program = false ->
  find_program os program st = (Raise (NameError "function_name"), st).
Proof.
  unfold on_first_dir; intros E H. rewrite find_program_eq, E in *. now rewrite H.
Qed.

Lemma find_program_state (program : string) (st : state os) :
  snd (find_program os program st) = st.
Proof.
  rewrite find_program_eq.
  destruct (environ os "PATH"); [|reflexivity].
  destruct (executable _ _ _); reflexivity.
Qed.

Lemma find_program_value (program : string) (st st' : state os) (v : pyval) :
  find_program os program st = (Ok v, st') -> v = PStr program /\ st' = st.
Proof.
  rewrite find_program_eq.
  destruct (environ os "PATH"); [|discriminate].
  destruct (executable _ _ _); intros H; inversion H; auto.
Qed.

(** The vector of a list that converts starts with the list's first
    element, a string. *)
Lemma fsencode_all_cons (x : pyval) (rest : list pyval) (argv : list string) :
  fsencode_all (x :: rest) = inr argv ->
  exists name argv', x = PStr name /\ argv = name :: argv'
                     /\ fsencode_all rest = inr argv'
                     /\ PyStr.mem "000" name = false.
Proof.
  simpl. destruct x as [|name|f|l]; try discriminate.
  destruct (PyStr.mem "000" name) eqn:N; [discriminate|].
  destruct (fsencode_all rest) as [e|argv'] eqn:E; [discriminate|].
  intros H; inversion H; subst. now exists name, argv'.
Qed.

Lemma popen_args_cons (x : pyval) (rest : list pyval) :
  popen_args (PList (x :: rest)) = fsencode_all (x :: rest).
Proof. reflexivity. Qed.

(** A list that does not convert is refused with a [TypeError] or a
    [ValueError]. *)
Lemma fsencode_all_error (l : list pyval) (e : exn) :
  fsencode_all l = inl e ->
  (exists m, e = TypeError m) \/ (exists m, e = ValueError m).
Proof.
  induction l as [|x l IH]; simpl; [discriminate|].
  destruct x as [|s|f|l']; try solve [intros H; inversion H; left; eauto].
  destruct (PyStr.mem "000" s); [intros H; inversion H; right; eauto|].
  destruct (fsencode_all l) as [e'|argv]; [|discriminate].
  intros H; inversion H; subst. now apply IH.
Qed.

Lemma fsencode_all_strings (l : list string) :
  forallb (fun s => negb (PyStr.mem "000" s)) l = true ->
  fsencode_all (map PStr l) = inr l.
Proof.
  induction l as [|s l IH]; simpl; [reflexivity|].
  intros H; apply andb_true_iff in H as [Hs Hl].
  apply negb_true_iff in Hs. now rewrite Hs, IH.
Qed.

(** [run_command] on a non-empty list, in closed form. *)
Lemma run_command_list_eq (x : pyval) (rest : list pyval) (st : state os) :
  run_command os (PList (x :: rest)) st =
  match fsencode_all (x :: rest) with
  | inl e => (Raise e, st)
  | inr argv =>
      match spawn os (st_world st) argv with
      | (Exited code, w') =>
          let st' := {| st_world := w'; st_trace := (st_trace st ++ [EvSpawn argv])%list |} in
          if (code =? 0)%Z then (Ok PNone, st')
          else (Raise (SystemExit (exited_with_errors (hd EmptyString argv))), st')
      | (NotStarted errno, w') =>
          (Raise (OSError errno), {| st_world := w'; st_trace := st_trace st |})
      end
  end.
Proof.
  unfold run_command, bind, getitem0, ret, subprocess_run.
  change (popen_args (PList (x :: rest))) with (fsencode_all (x :: rest)).
  destruct (fsencode_all (x :: rest)) as [e|argv] eqn:E; [reflexivity|].
  apply fsencode_all_cons in E as (name & argv' & -> & -> & _ & _).
  unfold exec.
  destruct (spawn os (st_world st) (name :: argv')) as [[code|errno] w']; [|reflexivity].
  destruct (code =? 0)%Z; reflexivity.
Qed.

End Facts.

Arguments bind_ok {os A B c k st st' a} _.
Arguments bind_raise {os A B c k st st' e} _.

(** ** Symbolic execution *)

(** Runs the [find_program] at the head of the goal: either it answers the
    program's name or it raises, and the state is the same. *)
Ltac run_find :=
  match goal with
  | |- context [bind ?os (find_program ?os ?p) ?k ?s] =>
      let F := fresh "F" in
      let S := fresh "S" in
      let v := fresh "v" in
      let e := fresh "e" in
      let s1 := fresh "s" in
      destruct (find_program os p s) as [[v|e] s1] eqn:F;
      [ rewrite (bind_ok F); apply find_program_value in F as [-> ->]
      | rewrite (bind_raise F);
        pose proof (find_program_state os p s) as S; rewrite F in S;
        simpl in S; subst s1 ]
  end.

(** [run_command] on a bare string, in closed form: the string is started
    as a program without arguments and named by its first character. *)
Lemma run_command_str_eq (os : OS) (c : ascii) (s : string) (st : state os) :
  run_command os (PStr (String c s)) st =
  match fsencode_all [PStr (String c s)] with
  | inl e => (Raise e, st)
  | inr argv =>
      match spawn os (st_world st) argv with
      | (Exited code, w') =>
          let st' := {| st_world := w'; st_trace := (st_trace st ++ [EvSpawn argv])%list |} in
          if (code =? 0)%Z then (Ok PNone, st')
          else (Raise (SystemExit (exited_with_errors (PyStr.first_char (String c s)))), st')
      | (NotStarted errno, w') =>
          (Raise (OSError errno), {| st_world := w'; st_trace := st_trace st |})
      end
  end.
Proof.
  unfold run_command, bind, getitem0, ret, subprocess_run.
  change (popen_args (PStr (String c s))) with (fsencode_all [PStr (String c s)]).
  destruct (fsencode_all [PStr (String c s)]) as [e|argv]; [reflexivity|].
  unfold exec.
  destruct (spawn os (st_world st) argv) as [[code|errno] w']; [|reflexivity].
  destruct (code =? 0)%Z; reflexivity.
Qed.

(** ** What a computation may log *)

Section Log.

Context (os : OS) (P : event -> Prop).

Lemma logs_ret {A} (a : A) : logs_only P (ret os a).
Proof. intros st; exists []; simpl; now rewrite app_nil_r. Qed.

Lemma logs_raise {A} (e : exn) : logs_only P (@raise os A e).
Proof. intros st; exists []; simpl; now rewrite app_nil_r. Qed.

Lemma logs_bind {A B} (c : M os A) (k : A -> M os B) :
  logs_only P c -> (forall a, logs_only P (k a)) -> logs_only P (bind os c k).
Proof.
  intros Hc Hk st. unfold bind.
  destruct (Hc st) as (n1 & E1 & P1).
  destruct (c st) as [[a|e] st1]; simpl in E1.
  - destruct (Hk a st1) as (n2 & E2 & P2). exists (n1 ++ n2)%list.
    rewrite E2, E1, app_assoc. split; [reflexivity | now apply Forall_app].
  - now exists n1.
Qed.

Lemma logs_print (line : string) : P (EvPrint line) -> logs_only P (print os line).
Proof. intros H st; exists [EvPrint line]; split; [reflexivity | now constructor]. Qed.

Lemma logs_exec (argv : list string) : P (EvSpawn argv) -> logs_only P (exec os argv).
Proof.
  intros H st; unfold exec.
  destruct (spawn os (st_world st) argv) as [[code|errno] w'].
  - exists [EvSpawn argv]; split; [reflexivity | now constructor].
  - exists []; simpl; now rewrite app_nil_r.
Qed.

Lemma logs_find_program (program : string) : logs_only P (find_program os program).
Proof.
  intros st; exists []. now rewrite find_program_state, app_nil_r.
Qed.

(** After [find_program] the name in hand is the program's. *)
Lemma logs_bind_find {B} (program : string) (k : pyval -> M os B) :
  logs_only P (k (PStr program)) -> logs_only P (bind os (find_program os program) k).
Proof.
  intros Hk st.
  destruct (find_program os program st) as [[v|e] st1] eqn:F.
  - rewrite (bind_ok F). apply find_program_value in F as [-> ->]. apply Hk.
  - rewrite (bind_raise F).
    pose proof (find_program_state os program st) as S. rewrite F in S. simpl in S; subst.
    exists []; simpl; now rewrite app_nil_r.
Qed.

Lemma logs_getitem_last {A} (l : list A) : logs_only P (getitem_last os l).
Proof. unfold getitem_last. destruct (rev l); [apply logs_raise | apply logs_ret]. Qed.

Lemma logs_run_command (cmd_list : pyval) :
  (forall argv, popen_args cmd_list = inr argv -> P (EvSpawn argv)) ->
  logs_only P (run_command os cmd_list).
Proof.
  intros H. unfold run_command. apply logs_bind.
  - destruct cmd_list as [| [|c s] | f | [|x l]]; simpl;
      first [apply logs_raise | apply logs_ret].
  - intros function_name. apply logs_bind.
    + unfold subprocess_run. destruct (popen_args cmd_list) as [e|argv];
        [apply logs_raise | apply logs_exec; now apply H].
    + intros code. destruct (negb (code =? 0)%Z); [|apply logs_ret].
      apply logs_bind; [|intros; apply logs_raise].
      destruct function_name; simpl; first [apply logs_raise | apply logs_ret].
Qed.

End Log.

(** Splits a sequence of statements into its steps, leaving what has to be
    shown of the lines printed and the processes started. *)
Ltac log_steps :=
  repeat first
    [ apply logs_ret | apply logs_raise | apply logs_getitem_last
    | apply logs_find_program | apply logs_print | apply logs_run_command
    | apply logs_bind_find
    | match goal with |- logs_only _ (if ?b then _ else _) => destruct b end
    | apply logs_bind; [|intros ?] ].

(** ** The executable locator *)

(** [find_program] raises no [SystemExit] at all: neither the one for an
    empty search path nor the one for a program that is not found. *)
Lemma find_program_no_system_exit (os : OS) (program : string) (st : state os)
    (msg : string) :
  fst (find_program os program st) <> Raise (SystemExit msg).
Proof.
  rewrite find_program_eq.
  destruct (environ os "PATH"); [|discriminate].
  destruct (executable _ _ _); discriminate.
Qed.

(** What [find_program] answers is decided by the first entry alone. *)
Lemma find_program_first_entry_only (os : OS) (program : string) (st : state os) :
  (exists v, fst (find_program os program st) = Ok v)
  <-> on_first_dir os (st_world st) program = true.
Proof.
  rewrite find_program_eq. unfold on_first_dir.
  destruct (environ os "PATH").
  - destruct (executable _ _ _); simpl; split; intros H; try reflexivity.
    + now exists (PStr program).
    + destruct H as [v H]; discriminate.
    + discriminate.
  - simpl; split; intros H; [destruct H as [v H]|]; discriminate.
Qed.

(** C1.  With the search path [/usr/local/bin:/usr/bin] and [mrcalc]
    executable in [/usr/bin] only, [find_program "mrcalc"] does not return
    the program: it stops at the first directory, and what it raises there is
    the [NameError] of [function_name], not a [SystemExit] naming [mrcalc].
    For a program that is in no directory it raises the same [NameError]. *)
Theorem find_program_stops_at_first_miss :
  on_some_dir mrtrix_second tt "mrcalc" = true
  /\ find_program mrtrix_second "mrcalc" (boot mrtrix_second tt)
     = (Raise (NameError "function_name"), boot mrtrix_second tt)
  /\ on_some_dir mrtrix_second tt "tckgen" = false
  /\ find_program mrtrix_second "tckgen" (boot mrtrix_second tt)
     = (Raise (NameError "function_name"), boot mrtrix_second tt).
Proof. repeat split; reflexivity. Qed.

(** C9.  With the search-path variable set to the empty string,
    [find_program] does not report an empty search path: splitting the empty
    string gives one empty entry, the length test does not fire, and the
    program is looked up in the current directory. *)
Theorem find_program_empty_search_path :
  environ empty_path "PATH" = Some EmptyString
  /\ PyStr.split ":" EmptyString = [EmptyString]
  /\ candidate EmptyString "mrcalc" = "mrcalc"
  /\ find_program empty_path "mrcalc" (boot empty_path tt)
     = (Raise (NameError "function_name"), boot empty_path tt).
Proof. repeat split; reflexivity. Qed.

(** ** The command runner *)

(** C2.  For every non-empty command list, [run_command] returns normally
    exactly when the child process it starts exits with status 0, and when
    the child exits with any other status it raises the fatal [SystemExit]
    whose message names the first element of the list. *)
Theorem run_command_exit_status (os : OS) (x : pyval) (rest : list pyval)
    (st : state os) :
  ((exists v, fst (run_command os (PList (x :: rest)) st) = Ok v)
   <-> (exists argv w', fsencode_all (x :: rest) = inr argv
                        /\ spawn os (st_world st) argv = (Exited 0, w')))
  /\ (forall argv code w',
        fsencode_all (x :: rest) = inr argv ->
        spawn os (st_world st) argv = (Exited code, w') ->
        code <> 0%Z ->
        exists name,
          x = PStr name
          /\ fst (run_command os (PList (x :: rest)) st)
             = Raise (SystemExit (exited_with_errors name))).
Proof.
  rewrite run_command_list_eq. split; [split|].
  - intros [v H].
    destruct (fsencode_all (x :: rest)) as [e|argv]; [discriminate|].
    destruct (spawn os (st_world st) argv) as [[code|errno] w'] eqn:S; [|discriminate].
    destruct (Z.eqb_spec code 0) as [->|]; [|discriminate].
    now exists argv, w'.
  - intros (argv & w' & -> & ->). now exists PNone.
  - intros argv code w' E S Hc. rewrite E, S.
    apply fsencode_all_cons in E as (name & argv' & -> & -> & _ & _).
    exists name; split; [reflexivity|].
    destruct (Z.eqb_spec code 0); [contradiction | reflexivity].
Qed.

Lemma run_command_exit_status_witness :
  fsencode_all [PStr "mrcalc"; PStr "roi.nii.gz"] = inr ["mrcalc"; "roi.nii.gz"]
  /\ spawn (tools_first 1) tt ["mrcalc"; "roi.nii.gz"] = (Exited 1, tt)
  /\ fst (run_command (tools_first 1) (PList [PStr "mrcalc"; PStr "roi.nii.gz"])
                      (boot (tools_first 1) tt))
     = Raise (SystemExit
                "Command mrcalc exited with errors. See message above for more information.").
Proof.
  split; [reflexivity|]. split; [reflexivity|].
  destruct (run_command_exit_status (tools_first 1) (PStr "mrcalc") [PStr "roi.nii.gz"]
              (boot (tools_first 1) tt)) as [_ H].
  destruct (H ["mrcalc"; "roi.nii.gz"] 1%Z tt eq_refl eq_refl) as (name & Hx & Hr).
  - discriminate.
  - injection Hx as <-. exact Hr.
Defined.

(** C10.  [run_command] takes the program name from the first element of its
    argument: on the empty list it raises [IndexError] with nothing started
    and nothing else changed, and on a non-empty list the name in the
    message of its [SystemExit] is the first element of the list. *)
Theorem run_command_program_name (os : OS) :
  (forall st : state os,
      run_command os (PList []) st = (Raise (IndexError "list index out of range"), st))
  /\ (forall (x : pyval) (rest : list pyval) (st : state os) (msg : string),
         fst (run_command os (PList (x :: rest)) st) = Raise (SystemExit msg) ->
         exists name, x = PStr name /\ msg = exited_with_errors name).
Proof.
  split; [reflexivity|].
  intros x rest st msg. rewrite run_command_list_eq.
  destruct (fsencode_all (x :: rest)) as [e|argv] eqn:E.
  - intros H; inversion H; subst.
    now destruct (fsencode_all_error _ _ E) as [[m Hm]|[m Hm]].
  - apply fsencode_all_cons in E as (name & argv' & -> & -> & _ & _).
    destruct (spawn os (st_world st) (name :: argv')) as [[code|errno] w']; [|discriminate].
    destruct (code =? 0)%Z; [discriminate|].
    simpl. intros H; inversion H. now exists name.
Qed.

Lemma run_command_program_name_witness :
  fst (run_command (tools_first 2) (PList [PStr "5ttgen"; PStr "fsl"])
                   (boot (tools_first 2) tt))
  = Raise (SystemExit (exited_with_errors "5ttgen"))
  /\ exists name, PStr "5ttgen" = PStr name
                  /\ exited_with_errors "5ttgen" = exited_with_errors name.
Proof.
  split; [reflexivity|].
  exact (proj2 (run_command_program_name (tools_first 2))
               (PStr "5ttgen") [PStr "fsl"] (boot (tools_first 2) tt)
               (exited_with_errors "5ttgen") eq_refl).
Defined.

(** ** The ROI merger *)

(** [merge_rois] never returns: it ends in an exception, and the only child
    process it can have started by then is the multiplication by 2. *)
Lemma merge_rois_never_adds (os : OS) (roi1 roi2 outpath_base : string)
    (st : state os) :
  exists e st',
    merge_rois os roi1 roi2 outpath_base st = (Raise e, st')
    /\ (st_trace st' = st_trace st
        \/ st_trace st' = (st_trace st ++ [EvSpawn (mrcalc_mult2_argv roi2)])%list).
Proof.
  unfold merge_rois. run_find.
  - match goal with
    | |- context [bind os (run_command os ?l) ?k ?s] =>
        destruct (run_command os l s) as [[v|e] s'] eqn:R
    end.
    + rewrite (bind_ok R). exists (NameError "out_file"), s'. split; [reflexivity|].
      rewrite run_command_list_eq in R.
      destruct (fsencode_all _) as [e|argv] eqn:E; [discriminate|].
      simpl in E. destruct (PyStr.mem "000" roi2); [discriminate|].
      destruct (PyStr.mem "000" _); [discriminate|].
      inversion E; subst argv.
      destruct (spawn _ _ _) as [[code|errno] w']; [|discriminate].
      destruct (code =? 0)%Z; inversion R; subst. right; reflexivity.
    + rewrite (bind_raise R). exists e, s'. split; [reflexivity|].
      rewrite run_command_list_eq in R.
      destruct (fsencode_all _) as [e'|argv] eqn:E.
      * inversion R; subst. now left.
      * simpl in E. destruct (PyStr.mem "000" roi2); [discriminate|].
        destruct (PyStr.mem "000" _); [discriminate|].
        inversion E; subst argv.
        destruct (spawn _ _ _) as [[code|errno] w']; [|inversion R; now left].
        destruct (code =? 0)%Z; inversion R; subst. right; reflexivity.
  - exists e, st. split; [reflexivity | now left].
Qed.

(** The part of the merge that is carried out: when [mrcalc] is found and
    starts, the second mask is multiplied by 2 into the intermediate named
    after it, and that is the only child process of the call. *)
Lemma merge_rois_multiplies (os : OS) (roi1 roi2 outpath_base : string)
    (st : state os) (code : Z) (w' : world os) :
  on_first_dir os (st_world st) "mrcalc" = true ->
  PyStr.mem "000" roi2 = false ->
  spawn os (st_world st) (mrcalc_mult2_argv roi2) = (Exited code, w') ->
  st_trace (snd (merge_rois os roi1 roi2 outpath_base st))
  = (st_trace st ++ [EvSpawn (mrcalc_mult2_argv roi2)])%list.
Proof.
  intros F N S. unfold merge_rois.
  rewrite (bind_ok (find_program_found os _ st F)).
  match goal with
  | |- context [bind os (run_command os ?l) ?k ?s] =>
      destruct (run_command os l s) as [[v|e] s'] eqn:R;
      [rewrite (bind_ok R) | rewrite (bind_raise R)];
      rewrite run_command_list_eq in R; simpl fsencode_all in R;
      rewrite mem_append, (mem_removesuffix _ _ _ N), N in R; simpl in R;
      unfold mrcalc_mult2_argv in S; rewrite S in R;
      destruct (code =? 0)%Z; inversion R; subst; reflexivity
  end.
Qed.

(** The intermediate of a mask [p.nii.gz] is [p_labelled.nii.gz]. *)
Lemma labelled_name (p : string) :
  PyStr.removesuffix (p ++ ".nii.gz") ".nii.gz" ++ "_labelled.nii.gz"
  = p ++ "_labelled.nii.gz".
Proof. now rewrite removesuffix_append. Qed.

(** C5.  Merging [R1.nii.gz] and [R2.nii.gz] with the prefix [out_], on a
    machine where [mrcalc] is found and succeeds: the multiplication
    [mrcalc R2.nii.gz 2 -mult R2_labelled.nii.gz] is started, and then the
    function ends in the [NameError] of [out_file]; the addition is never
    started and no atlas is written. *)
Theorem merge_rois_stops_before_add :
  merge_rois (tools_first 0) "R1.nii.gz" "R2.nii.gz" "out_" (boot (tools_first 0) tt)
  = (Raise (NameError "out_file"),
     after (tools_first 0) tt
       ([EvSpawn ["mrcalc"; "R2.nii.gz"; "2"; "-mult"; "R2_labelled.nii.gz"]])).
Proof. reflexivity. Qed.

(** ** The anatomical-to-GMWMI converter *)

(** [anat_to_gmwmi] as a choice followed by [gmwmi_steps]: the directory
    test comes first, the extension test second. *)
Lemma anat_to_gmwmi_eq (os : OS) (anat outpath_base : string) (st : state os) :
  anat_to_gmwmi os anat outpath_base st =
  let chosen algo :=
    gmwmi_steps os algo anat outpath_base
      (after os (st_world st) (st_trace st ++ [EvPrint (banner algo)])) in
  if path_isdir os (st_world st) (PyStr.join anat ["surf"]) then chosen "hsvs"
  else if volume_extension anat then chosen "fsl"
  else (Raise (PyException
                 "Neither T1 or FreeSurfer input detected; Unable to create GMWMI"), st).
Proof.
  unfold anat_to_gmwmi, volume_extension. unfold bind at 1, isdir at 1.
  destruct (path_isdir os (st_world st) (PyStr.join anat ["surf"])).
  - reflexivity.
  - destruct (_ || _ || _); reflexivity.
Qed.

(** What [gmwmi_steps] logs: the announcement of the 5TT image first, and
    then, when [5ttgen] is found and starts, [5ttgen] with the chosen
    algorithm. *)
Lemma gmwmi_steps_log (os : OS) (algo anat outpath_base : string) (st : state os) :
  exists rest,
    st_trace (snd (gmwmi_steps os algo anat outpath_base st))
    = (st_trace st ++ EvPrint "Generating 5TT Image" :: rest)%list
    /\ (forall code w',
          on_first_dir os (st_world st) "5ttgen" = true ->
          spawn os (st_world st) (fivettgen_argv algo anat outpath_base) = (Exited code, w') ->
          PyStr.mem "000" algo = false ->
          PyStr.mem "000" anat = false ->
          PyStr.mem "000" outpath_base = false ->
          exists rest', rest = EvSpawn (fivettgen_argv algo anat outpath_base) :: rest').
Proof.
  unfold gmwmi_steps.
  rewrite (bind_ok (c := print os "Generating 5TT Image") (st := st)
                   (st' := after os (st_world st)
                             (st_trace st ++ [EvPrint "Generating 5TT Image"]))
                   (a := tt) eq_refl).
  run_find.
  - match goal with
    | |- context [bind os (run_command os ?l) ?k ?s] =>
        destruct (run_command os l s) as [[v|e] s'] eqn:R;
        [ rewrite (bind_ok R);
          assert (logs_only (fun _ => True) (k v)) as X by (cbv beta; log_steps; auto);
          destruct (X s') as (new & Hnew & _); rewrite Hnew; clear X Hnew
        | rewrite (bind_raise R) ];
        rewrite run_command_list_eq in R; simpl fsencode_all in R;
        rewrite ?mem_append in R
    end.
    + destruct (PyStr.mem "000" algo) eqn:N1; [discriminate|].
      destruct (PyStr.mem "000" anat) eqn:N2; [discriminate|].
      destruct (PyStr.mem "000" outpath_base) eqn:N3; [discriminate|].
      simpl in R.
      destruct (spawn os (st_world st) _) as [[code|errno] w'] eqn:SP; [|discriminate].
      destruct (code =? 0)%Z; inversion R; subst; clear R. simpl.
      exists (EvSpawn (fivettgen_argv algo anat outpath_base) :: new). split.
      * now rewrite <- !app_assoc.
      * intros; now exists new.
    + destruct (PyStr.mem "000" algo) eqn:N1;
        [inversion R; subst; exists []; split; [reflexivity | intros; discriminate]|].
      destruct (PyStr.mem "000" anat) eqn:N2;
        [inversion R; subst; exists []; split; [reflexivity | intros; discriminate]|].
      destruct (PyStr.mem "000" outpath_base) eqn:N3;
        [inversion R; subst; exists []; split; [reflexivity | intros; discriminate]|].
      simpl in R.
      destruct (spawn os (st_world st) _) as [[code|errno] w'] eqn:SP.
      * destruct (code =? 0)%Z; inversion R; subst; clear R. simpl.
        exists [EvSpawn (fivettgen_argv algo anat outpath_base)]. split.
        -- now rewrite <- !app_assoc.
        -- intros; now exists [].
      * inversion R; subst; clear R. simpl. exists []. split; [reflexivity|].
        intros code w'' _ SP'. discriminate SP'.
  - exists []. split; [reflexivity|].
    intros code w' Hon. simpl in Hon.
    apply (find_program_found os "5ttgen"
             (after os (st_world st) (st_trace st ++ [EvPrint "Generating 5TT Image"]))) in Hon.
    rewrite Hon in F. discriminate.
Qed.

(** The three slice comparisons are the test that the path ends in one of
    the three extensions. *)
Lemma volume_extension_ends_in (anat : string) :
  volume_extension anat = true
  <-> ends_in anat ".nii" \/ ends_in anat ".nii.gz" \/ ends_in anat ".mif".
Proof.
  unfold volume_extension. rewrite !orb_true_iff.
  rewrite <- (slice_last_ends_in anat ".nii"), <- (slice_last_ends_in anat ".nii.gz"),
    <- (slice_last_ends_in anat ".mif").
  simpl String.length. tauto.
Qed.

Lemma chosen_selects (os : OS) (algo anat outpath_base : string) (st : state os) :
  PyStr.mem "000" algo = false ->
  selects os algo anat outpath_base st
    (gmwmi_steps os algo anat outpath_base
       (after os (st_world st) (st_trace st ++ [EvPrint (banner algo)]))).
Proof.
  intros Halgo.
  destruct (gmwmi_steps_log os algo anat outpath_base
              (after os (st_world st) (st_trace st ++ [EvPrint (banner algo)])))
    as (rest & E & L).
  exists rest. split.
  - rewrite E. simpl. now rewrite <- app_assoc.
  - intros code w' Hon Hsp Hanat Hbase. now apply (L code w').
Qed.

(** C6, as amended.  [anat_to_gmwmi] selects [hsvs] for every input whose
    [surf] entry is a directory; it selects [fsl] for every input that ends
    in [.nii], [.nii.gz] or [.mif] and has no [surf] directory; every other
    input is refused with the descriptive exception, nothing printed and
    nothing started. *)
Theorem anat_to_gmwmi_classification (os : OS) (anat outpath_base : string)
    (st : state os) :
  let out := anat_to_gmwmi os anat outpath_base st in
  let surf := path_isdir os (st_world st) (PyStr.join anat ["surf"]) in
  (surf = true -> selects os "hsvs" anat outpath_base st out)
  /\ (surf = false ->
      ends_in anat ".nii" \/ ends_in anat ".nii.gz" \/ ends_in anat ".mif" ->
      selects os "fsl" anat outpath_base st out)
  /\ (surf = false ->
      ~ ends_in anat ".nii" -> ~ ends_in anat ".nii.gz" -> ~ ends_in anat ".mif" ->
      out = (Raise (PyException
                      "Neither T1 or FreeSurfer input detected; Unable to create GMWMI"),
             st)).
Proof.
  intros out surf. subst out surf. rewrite anat_to_gmwmi_eq. cbv zeta.
  repeat split.
  - intros ->. now apply chosen_selects.
  - intros -> Hext. apply volume_extension_ends_in in Hext. rewrite Hext.
    now apply chosen_selects.
  - intros -> H1 H2 H3.
    destruct (volume_extension anat) eqn:V; [|reflexivity].
    apply volume_extension_ends_in in V. tauto.
Qed.

Lemma anat_to_gmwmi_classification_witness :
  (path_isdir (tools_first 0) tt (PyStr.join "sub-01_T1w.nii.gz" ["surf"]) = false
   /\ ends_in "sub-01_T1w.nii.gz" ".nii.gz"
   /\ selects (tools_first 0) "fsl" "sub-01_T1w.nii.gz" "out_" (boot (tools_first 0) tt)
        (anat_to_gmwmi (tools_first 0) "sub-01_T1w.nii.gz" "out_" (boot (tools_first 0) tt)))
  /\ (path_isdir freesurfer_nii tt (PyStr.join "sub-01.nii" ["surf"]) = true
      /\ selects freesurfer_nii "hsvs" "sub-01.nii" "out_" (boot freesurfer_nii tt)
           (anat_to_gmwmi freesurfer_nii "sub-01.nii" "out_" (boot freesurfer_nii tt)))
  /\ anat_to_gmwmi (tools_first 0) "notes.txt" "out_" (boot (tools_first 0) tt)
     = (Raise (PyException
                 "Neither T1 or FreeSurfer input detected; Unable to create GMWMI"),
        boot (tools_first 0) tt).
Proof.
  split; [|split].
  - split; [reflexivity|]. split; [now exists "sub-01_T1w"|].
    apply (proj1 (proj2 (anat_to_gmwmi_classification (tools_first 0) "sub-01_T1w.nii.gz"
                           "out_" (boot (tools_first 0) tt))) eq_refl).
    right; left. now exists "sub-01_T1w".
  - split; [reflexivity|].
    exact (proj1 (anat_to_gmwmi_classification freesurfer_nii "sub-01.nii" "out_"
                    (boot freesurfer_nii tt)) eq_refl).
  - apply (proj2 (proj2 (anat_to_gmwmi_classification (tools_first 0) "notes.txt" "out_"
                           (boot (tools_first 0) tt))) eq_refl).
    all: intros H; apply slice_last_ends_in in H; vm_compute in H; discriminate H.
Defined.

(** C6, as stated, fails where the two tests overlap: [sub-01.nii] ends in
    [.nii] and is a directory with a [surf] subdirectory; the directory test
    comes first, so [5ttgen] is started with [hsvs], not with [fsl]. *)
Lemma volume_extension_on_freesurfer_directory :
  ends_in "sub-01.nii" ".nii"
  /\ st_trace (snd (anat_to_gmwmi freesurfer_nii "sub-01.nii" "out_"
                                  (boot freesurfer_nii tt)))
     = [EvPrint "FreeSurfer input detected: Using 5ttgen HSVS algorithm to generate GMWMI";
        EvPrint "Generating 5TT Image";
        EvSpawn ["5ttgen"; "hsvs"; "sub-01.nii"; "out_5tt.nii.gz"; "-nocrop"];
        EvPrint "Generating GMWMI Image";
        EvSpawn ["5tt2gmwmi"; "out_5tt.nii.gz"; "out_gmwmi.nii.gz"];
        EvPrint "Finished creating GMWMI"]
  /\ ~ selects freesurfer_nii "fsl" "sub-01.nii" "out_" (boot freesurfer_nii tt)
        (anat_to_gmwmi freesurfer_nii "sub-01.nii" "out_" (boot freesurfer_nii tt)).
Proof.
  split; [now exists "sub-01"|]. split; [reflexivity|].
  intros (rest & E & _). vm_compute in E. discriminate E.
Qed.

(** ** The streamline extractor *)

(** A search distance that is a float reaches [subprocess.run] as a float:
    nothing is started and the call ends in an exception. *)
Lemma extract_tck_mrtrix_float (os : OS) (tck_file rois_in outpath_base : string)
    (f : spec_float) (two_rois : bool) (st : state os) :
  exists e,
    extract_tck_mrtrix os tck_file rois_in outpath_base (PFloat f) two_rois st
    = (Raise e, st).
Proof.
  unfold extract_tck_mrtrix.
  destruct (find_program os "tck2connectome" st) as [[v|e] st1] eqn:F.
  - rewrite (bind_ok F). apply find_program_value in F as [-> ->].
    match goal with
    | |- context [run_command os ?l] =>
        assert (exists e, run_command os l st = (Raise e, st)) as [e R]
    end.
    { rewrite run_command_list_eq. simpl fsencode_all.
      destruct (PyStr.mem "000" tck_file), (PyStr.mem "000" rois_in),
        (PyStr.mem "000" (outpath_base ++ "connectome.txt")); eexists; reflexivity. }
    exists e. apply (bind_raise R).
  - rewrite (bind_raise F).
    pose proof (find_program_state os "tck2connectome" st) as S. rewrite F in S.
    simpl in S; subst. now exists e.
Qed.

(** C3.  In the scenario of the spec, with the search distance the float
    [2.0], [extract_tck_mrtrix] starts no tool: the float is placed in the
    command list as it is and [subprocess.run] refuses it. *)
Theorem extract_tck_mrtrix_float_search_distance :
  extract_tck_mrtrix (tools_first 0) "T.tck" "R.nii.gz" "out_"
                     (PFloat two_point_zero) false (boot (tools_first 0) tt)
  = (Raise (TypeError "expected str, bytes or os.PathLike object, not float"),
     boot (tools_first 0) tt).
Proof. reflexivity. Qed.

(** With the search distance already in textual form the assignment tool is
    started with the argument vector of the spec. *)
Example extract_tck_mrtrix_text_search_distance :
  st_trace (snd (extract_tck_mrtrix (tools_first 0) "T.tck" "R.nii.gz" "out_"
                                    (PStr "2.0") false (boot (tools_first 0) tt)))
  = [EvSpawn ["tck2connectome"; "T.tck"; "R.nii.gz"; "out_connectome.txt";
              "-assignment_forward_search"; "2.0"; "-out_assignments";
              "out_assignments.txt"; "-force"];
     EvSpawn ["connectome2tck"; "T.tck"; "out_assignments.txt"; "out_extracted";
              "-nodes"; "0,1"; "-exclusive"; "-files"; "single"]].
Proof. reflexivity. Qed.

(** C4.  In the one-ROI scenario of the spec, with the prefix [out_] and the
    search distance the float [2.0], the filter tool is never started,
    whichever value [two_rois] has: the call ends in the [TypeError] of the
    assignment stage before [connectome2tck] is looked up, so neither node
    set reaches it and the argument vector of the claim is not in the log.
    With the same arguments and the search distance given as the text [2.0]
    that argument vector is in the log. *)
Theorem extract_tck_mrtrix_filter_not_reached :
  (forall two_rois : bool,
      let out := extract_tck_mrtrix (tools_first 0) "T.tck" "R.nii.gz" "out_"
                                    (PFloat two_point_zero) two_rois
                                    (boot (tools_first 0) tt) in
      fst out = Raise (TypeError "expected str, bytes or os.PathLike object, not float")
      /\ st_trace (snd out) = []
      /\ ~ In (EvSpawn (connectome2tck_argv "T.tck" "out_"
                                            (if two_rois then "1,2" else "0,1")))
               (st_trace (snd out)))
  /\ In (EvSpawn ["connectome2tck"; "T.tck"; "out_assignments.txt"; "out_extracted";
                  "-nodes"; "0,1"; "-exclusive"; "-files"; "single"])
        (st_trace (snd (extract_tck_mrtrix (tools_first 0) "T.tck" "R.nii.gz" "out_"
                                           (PStr "2.0") false (boot (tools_first 0) tt)))).
Proof.
  split.
  - intros two_rois out. subst out.
    destruct two_rois; (split; [reflexivity|]); (split; [reflexivity|]); intros H; exact H.
  - right; left; reflexivity.
Qed.

(** The filter stage, where it is reached.  Once the assignment stage has
    run to a zero exit status (its tool found, the search distance given as
    text), and the filter tool is found and starts, [extract_tck_mrtrix] has
    started exactly two child processes:
    the assignment tool and then the filter tool, the latter with the node set
    ["1,2"] when [two_rois] holds and ["0,1"] otherwise.  For the prefix
    [out_] and one ROI this is the vector
    [connectome2tck T.tck out_assignments.txt out_extracted -nodes 0,1
    -exclusive -files single]. *)
Theorem extract_tck_mrtrix_nodes (os : OS) (tck_file rois_in outpath_base : string)
    (search_dist : string) (two_rois : bool) (st : state os)
    (w1 w2 : world os) (code : Z) :
  let nodes := if two_rois then "1,2" else "0,1" in
  on_first_dir os (st_world st) "tck2connectome" = true ->
  forallb (fun s => negb (PyStr.mem "000" s))
          [tck_file; rois_in; outpath_base; search_dist] = true ->
  spawn os (st_world st) (tck2connectome_argv tck_file rois_in outpath_base search_dist)
  = (Exited 0, w1) ->
  on_first_dir os w1 "connectome2tck" = true ->
  spawn os w1 (connectome2tck_argv tck_file outpath_base nodes) = (Exited code, w2) ->
  st_trace (snd (extract_tck_mrtrix os tck_file rois_in outpath_base
                                    (PStr search_dist) two_rois st))
  = (st_trace st
     ++ [EvSpawn (tck2connectome_argv tck_file rois_in outpath_base search_dist);
         EvSpawn (connectome2tck_argv tck_file outpath_base nodes)])%list
  /\ connectome2tck_argv "T.tck" "out_" (if false then "1,2" else "0,1")
     = ["connectome2tck"; "T.tck"; "out_assignments.txt"; "out_extracted";
        "-nodes"; "0,1"; "-exclusive"; "-files"; "single"].
Proof.
  intros nodes F1 N S1 F2 S2. split; [|reflexivity].
  simpl in N. repeat (apply andb_true_iff in N as [? N]).
  repeat match goal with H : negb _ = true |- _ => apply negb_true_iff in H end.
  unfold extract_tck_mrtrix.
  rewrite (bind_ok (find_program_found os _ st F1)).
  match goal with
  | |- context [bind os (run_command os ?l) ?k st] =>
      assert (run_command os l st
              = (Ok PNone,
                 {| st_world := w1;
                    st_trace := (st_trace st ++ [EvSpawn (tck2connectome_argv
                                   tck_file rois_in outpath_base search_dist)])%list |}))
        as R1
  end.
  { rewrite run_command_list_eq. simpl fsencode_all.
    rewrite !mem_append. repeat match goal with H : PyStr.mem _ _ = false |- _ => rewrite H end.
    simpl. unfold tck2connectome_argv in S1. now rewrite S1. }
  rewrite (bind_ok R1).
  rewrite (bind_ok (find_program_found os _ {| st_world := w1; st_trace := _ |} F2)).
  fold nodes.
  match goal with
  | |- context [bind os (run_command os ?l) ?k ?s] =>
      assert (st_trace (snd (run_command os l s))
              = (st_trace s ++ [EvSpawn (connectome2tck_argv tck_file outpath_base nodes)])%list
              /\ forall v s', run_command os l s = (Ok v, s') -> snd (run_command os l s) = s')
        as [R2 R2']
  end.
  { rewrite run_command_list_eq. simpl fsencode_all.
    rewrite !mem_append. repeat match goal with H : PyStr.mem _ _ = false |- _ => rewrite H end.
    assert (PyStr.mem "000" nodes = false) as -> by (unfold nodes; now destruct two_rois).
    simpl. unfold connectome2tck_argv in S2. rewrite S2.
    destruct (code =? 0)%Z; split; try reflexivity; intros v s' E; now inversion E. }
  match goal with
  | |- context [bind os (run_command os ?l) ?k ?s] =>
      destruct (run_command os l s) as [[v|e] s'] eqn:R
  end.
  - rewrite (bind_ok R). simpl in R2 |- *. rewrite R2. simpl.
    now rewrite <- app_assoc.
  - rewrite (bind_raise R). simpl in R2 |- *. rewrite R2. simpl.
    now rewrite <- app_assoc.
Qed.

Lemma extract_tck_mrtrix_nodes_witness :
  st_trace (snd (extract_tck_mrtrix (tools_first 0) "T.tck" "R.nii.gz" "out_"
                                    (PStr "2.0") false (boot (tools_first 0) tt)))
  = [EvSpawn ["tck2connectome"; "T.tck"; "R.nii.gz"; "out_connectome.txt";
              "-assignment_forward_search"; "2.0"; "-out_assignments";
              "out_assignments.txt"; "-force"];
     EvSpawn ["connectome2tck"; "T.tck"; "out_assignments.txt"; "out_extracted";
              "-nodes"; "0,1"; "-exclusive"; "-files"; "single"]].
Proof.
  exact (proj1 (extract_tck_mrtrix_nodes (tools_first 0) "T.tck" "R.nii.gz" "out_" "2.0"
                  false (boot (tools_first 0) tt) tt tt 0%Z
                  eq_refl eq_refl eq_refl eq_refl eq_refl)).
Defined.

(** ** The ROI dilator *)

(** C8.  On a machine where the FreeSurfer tools are found and succeed,
    the last step of [dilate_roi] starts [mri_surf2vol] without any argument,
    for a surface ROI and for a volumetric one: neither [--surfval] with the
    surface ROI nor [--o] with the input path reaches the tool, so the input
    ROI is not overwritten with a dilated result. *)
Theorem dilate_roi_surf2vol_without_arguments :
  dilate_roi (tools_first 0) "lh.V1.label" "/subjects/sub-01" "lh" "out_"
             (boot (tools_first 0) tt)
  = (Ok PNone,
     after (tools_first 0) tt
       ([EvPrint "Starting with surface ROI"; EvSpawn ["mri_surf2vol"]]))
  /\ dilate_roi (tools_first 0) "roi.nii.gz" "/subjects/sub-01" "lh" "out_"
                (boot (tools_first 0) tt)
     = (Ok PNone,
        after (tools_first 0) tt
       ([EvPrint "Using volumetric ROI dilation pipeline";
                        EvSpawn ["mri_vol2surf"; "--src"; "roi.nii.gz"; "--projfrac-max";
                                 "-.5 1 .1"; "--out"; "roi.nii..mgz"; "--regheader";
                                 "sub-01"; "--hemi"; "lh"];
                        EvSpawn ["mri_surf2vol"]]))
  /\ mri_surf2vol_argv "lh.V1.label" "lh.V1.label" "sub-01" "lh" "/subjects/sub-01"
     <> ["mri_surf2vol"].
Proof. repeat split; try reflexivity. discriminate. Qed.

(** Where a tool without arguments fails, the failure is reported under the
    first character of its name. *)
Example dilate_roi_reports_m :
  fst (dilate_roi usage_on_no_arguments "lh.V1.label" "/subjects/sub-01" "lh" "out_"
                  (boot usage_on_no_arguments tt))
  = Raise (SystemExit (exited_with_errors "m")).
Proof. reflexivity. Qed.

(** Whatever the ROI, the subject directory and the machine: every child
    process [dilate_roi] starts under the name [mri_surf2vol] is started
    without arguments. *)
Lemma dilate_roi_surf2vol_bare (os : OS) (roi_in fs_dir hemi outpath_base : string) :
  logs_only bare_surf2vol (dilate_roi os roi_in fs_dir hemi outpath_base).
Proof.
  unfold dilate_roi. log_steps.
  - intros argv E; discriminate E.
  - intros argv E a' Ea Hhd. injection Ea as <-.
    rewrite popen_args_cons in E.
    apply fsencode_all_cons in E as (name & argv' & Hx & -> & _).
    injection Hx as <-. discriminate Hhd.
  - intros argv E; discriminate E.
  - intros argv E a' Ea _. injection Ea as <-.
    vm_compute in E. now injection E as <-.
Qed.

(** ** The GMWMI intersector *)

(** [intersect_gmwmi] never starts a process: it ends in an exception with
    the state it was given. *)
Lemma intersect_gmwmi_never_runs (os : OS) (rois_in gmwmi outpath_base : string)
    (st : state os) :
  exists e, intersect_gmwmi os rois_in gmwmi outpath_base st = (Raise e, st).
Proof.
  unfold intersect_gmwmi. run_find.
  - now exists (NameError "mrcalc_path").
  - now exists e.
Qed.

(** C7.  On a machine where [mrcalc] is found, [intersect_gmwmi] starts no
    tool and writes nothing: building the command list it reads
    [mrcalc_path], a name it does not have, and ends in [NameError]. *)
Theorem intersect_gmwmi_name_error :
  intersect_gmwmi (tools_first 0) "rois.nii.gz" "out_gmwmi.nii.gz" "out_"
                  (boot (tools_first 0) tt)
  = (Raise (NameError "mrcalc_path"), boot (tools_first 0) tt).
Proof. reflexivity. Qed.

(** * Further properties of the module *)

(** ** More on strings *)

Lemma mem_sym_false (c d : ascii) (t : string) :
  PyStr.mem c (String d t) = false -> Ascii.eqb d c = false /\ PyStr.mem c t = false.
Proof.
  simpl. intros H. apply orb_false_iff in H as [H1 H2].
  now rewrite Ascii.eqb_sym.
Qed.

(** A string without the separator is one field. *)
Lemma split_no_sep (sep : ascii) (s : string) :
  PyStr.mem sep s = false -> PyStr.split sep s = [s].
Proof.
  induction s as [|c s IH]; [reflexivity|].
  intros H. apply mem_sym_false in H as [Hc Hs].
  simpl. now rewrite Hc, (IH Hs).
Qed.

(** Splitting distributes over a separator. *)
Lemma split_app_sep (sep : ascii) (p s : string) :
  PyStr.split sep (p ++ String sep s) = (PyStr.split sep p ++ PyStr.split sep s)%list.
Proof.
  induction p as [|c p IH]; simpl.
  - now rewrite Ascii.eqb_refl.
  - rewrite IH. destruct (Ascii.eqb c sep); [reflexivity|].
    destruct (PyStr.split sep p) as [|w ws] eqn:E; [now apply split_not_nil in E|].
    reflexivity.
Qed.


(** The last field is what follows the last separator. *)
Lemma split_last (sep : ascii) (p e : string) :
  PyStr.mem sep e = false ->
  rev (PyStr.split sep (p ++ String sep e)) = e :: rev (PyStr.split sep p).
Proof.
  intros H. now rewrite split_app_sep, (split_no_sep _ _ H), rev_app_distr.
Qed.



(** A component that starts with the separator replaces the path. *)
Lemma join_absolute (dir program : string) :
  PyStr.startswith program "/" = true -> PyStr.join dir [program] = program.
Proof. intros H. unfold PyStr.join, PyStr.join_step. simpl. now rewrite H. Qed.

(** Joining onto the empty path gives the component. *)
Lemma join_empty (program : string) : PyStr.join EmptyString [program] = program.
Proof.
  unfold PyStr.join, PyStr.join_step. simpl.
  now destruct (PyStr.startswith program "/").
Qed.

(** ** More on the executable locator *)

(** X1.  When the search-path variable is not set, [find_program] raises
    [KeyError('PATH')] for every program, and so do the functions that start
    by locating a tool, [merge_rois], [extract_tck_mrtrix] and
    [intersect_gmwmi]: nothing is started and nothing printed. *)
Theorem unset_search_path (os : OS) (st : state os) :
  environ os "PATH" = None ->
  (forall program, find_program os program st = (Raise (KeyError "PATH"), st))
  /\ (forall roi1 roi2 outpath_base,
         merge_rois os roi1 roi2 outpath_base st = (Raise (KeyError "PATH"), st))
  /\ (forall tck_file rois_in outpath_base search_dist two_rois,
         extract_tck_mrtrix os tck_file rois_in outpath_base search_dist two_rois st
         = (Raise (KeyError "PATH"), st))
  /\ (forall rois_in gmwmi outpath_base,
         intersect_gmwmi os rois_in gmwmi outpath_base st = (Raise (KeyError "PATH"), st)).
Proof.
  intros E.
  assert (F : forall program, find_program os program st = (Raise (KeyError "PATH"), st)).
  { intros program. rewrite find_program_eq. now rewrite E. }
  split; [exact F|]. repeat split; intros.
  - unfold merge_rois. apply (bind_raise (F _)).
  - unfold extract_tck_mrtrix. apply (bind_raise (F _)).
  - unfold intersect_gmwmi. apply (bind_raise (F _)).
Qed.

Lemma unset_search_path_witness :
  environ no_path "PATH" = None
  /\ extract_tck_mrtrix no_path "T.tck" "R.nii.gz" "out_" (PStr "2.0") false (boot no_path tt)
     = (Raise (KeyError "PATH"), boot no_path tt).
Proof.
  split; [reflexivity|].
  exact (proj1 (proj2 (proj2 (unset_search_path no_path (boot no_path tt) eq_refl)))
               "T.tck" "R.nii.gz" "out_" (PStr "2.0") false).
Defined.

(** X2.  [find_program] returns exactly when the program is executable in
    the first directory of the search path, and what it returns is then the
    name it was given, not the path of the file it found; the state is as
    before. *)
Theorem find_program_returns_name (os : OS) (program : string) (st : state os) :
  (forall v st', find_program os program st = (Ok v, st') -> v = PStr program /\ st' = st)
  /\ (find_program os program st = (Ok (PStr program), st)
      <-> on_first_dir os (st_world st) program = true).
Proof.
  split; [intros v st'; apply find_program_value|]. split.
  - intros F. apply find_program_first_entry_only. exists (PStr program). now rewrite F.
  - apply find_program_found.
Qed.

Lemma find_program_returns_name_witness :
  on_first_dir (tools_first 0) tt "5ttgen" = true
  /\ find_program (tools_first 0) "5ttgen" (boot (tools_first 0) tt)
     = (Ok (PStr "5ttgen"), boot (tools_first 0) tt).
Proof.
  split; [reflexivity|].
  exact (proj2 (proj2 (find_program_returns_name (tools_first 0) "5ttgen"
                         (boot (tools_first 0) tt))) eq_refl).
Defined.

(** X3.  For a program given by an absolute path the directories of the
    search path play no part: with the variable set, [find_program] returns
    the path when that file itself is executable and raises otherwise. *)
Theorem find_program_absolute (os : OS) (program p : string) (st : state os) :
  environ os "PATH" = Some p ->
  PyStr.startswith program "/" = true ->
  find_program os program st
  = if executable os (st_world st) program
    then (Ok (PStr program), st)
    else (Raise (NameError "function_name"), st).
Proof.
  intros E A. rewrite find_program_eq, E. unfold candidate.
  now rewrite (join_absolute _ _ A).
Qed.

Lemma find_program_absolute_witness :
  on_some_dir absolute_only tt "/opt/mrtrix3/bin/mrcalc" = true
  /\ find_program absolute_only "/opt/mrtrix3/bin/mrcalc" (boot absolute_only tt)
     = (Ok (PStr "/opt/mrtrix3/bin/mrcalc"), boot absolute_only tt).
Proof.
  split; [reflexivity|].
  exact (find_program_absolute absolute_only "/opt/mrtrix3/bin/mrcalc"
           "/usr/local/bin:/usr/bin" (boot absolute_only tt) eq_refl eq_refl).
Defined.

(** X4.  When the search path is empty or starts with an empty entry, the
    program is looked up as named, that is in the current directory:
    [find_program] returns it when that file is executable and raises
    otherwise. *)
Theorem find_program_empty_first_entry (os : OS) (program p : string) (st : state os) :
  environ os "PATH" = Some p ->
  p = EmptyString \/ (exists rest, p = String ":" rest) ->
  find_program os program st
  = if executable os (st_world st) program
    then (Ok (PStr program), st)
    else (Raise (NameError "function_name"), st).
Proof.
  intros E H. rewrite find_program_eq, E.
  assert (hd EmptyString (PyStr.split ":" p) = EmptyString) as ->.
  { destruct H as [-> | [rest ->]]; reflexivity. }
  unfold candidate. change (PyStr.strip _ EmptyString) with EmptyString.
  now rewrite join_empty.
Qed.

Lemma find_program_empty_first_entry_witness :
  find_program cwd_first "mrcalc" (boot cwd_first tt)
  = (Ok (PStr "mrcalc"), boot cwd_first tt).
Proof.
  exact (find_program_empty_first_entry cwd_first "mrcalc" ":/usr/bin" (boot cwd_first tt)
           eq_refl (or_intror (ex_intro _ "/usr/bin" eq_refl))).
Defined.



(** ** More on the command runner *)

(** [run_command] on a list of strings whose program starts and ends. *)
Lemma run_command_strings (os : OS) (argv : list string) (st : state os)
    (code : Z) (w' : world os) :
  argv <> [] ->
  forallb (fun s => negb (PyStr.mem "000" s)) argv = true ->
  spawn os (st_world st) argv = (Exited code, w') ->
  run_command os (PList (map PStr argv)) st
  = (if (code =? 0)%Z then Ok PNone
     else Raise (SystemExit (exited_with_errors (hd EmptyString argv))),
     after os w' (st_trace st ++ [EvSpawn argv])).
Proof.
  intros Hne N S. destruct argv as [|a argv]; [contradiction|].
  change (map PStr (a :: argv)) with (PStr a :: map PStr argv).
  rewrite run_command_list_eq.
  change (PStr a :: map PStr argv) with (map PStr (a :: argv)).
  rewrite (fsencode_all_strings _ N), S.
  now destruct (code =? 0)%Z.
Qed.

(** A string that starts with an ASCII character is indexed by that
    character. *)
Lemma first_char_ascii (c : ascii) (t : string) :
  nat_of_ascii c <= 127 -> PyStr.first_char (String c t) = String c EmptyString.
Proof.
  intros H. unfold PyStr.first_char, PyStr.first_char_length, PyStr.in_range.
  replace (nat_of_ascii c <=? 127)%nat with true by (symmetry; now apply Nat.leb_le).
  simpl. now destruct t.
Qed.

(** A two-byte character is indexed whole. *)
Example first_char_two_bytes :
  PyStr.first_char (String "195" (String "169" "cole")) = String "195" (String "169" EmptyString).
Proof. reflexivity. Qed.

(** X6.  Given a bare string instead of a list, [run_command] starts the
    program of that name without arguments, and when the program ends with a
    nonzero status the [SystemExit] names only the first character of the
    string: the whole character, all its bytes where it has several. *)
Theorem run_command_bare_string (os : OS) (c : ascii) (t : string) (st : state os)
    (code : Z) (w' : world os) :
  PyStr.mem "000" (String c t) = false ->
  spawn os (st_world st) [String c t] = (Exited code, w') ->
  run_command os (PStr (String c t)) st
  = (if (code =? 0)%Z then Ok PNone
     else Raise (SystemExit (exited_with_errors (PyStr.first_char (String c t)))),
     after os w' (st_trace st ++ [EvSpawn [String c t]])).
Proof.
  intros N S. rewrite run_command_str_eq.
  cbn [fsencode_all]. rewrite N, S.
  now destruct (code =? 0)%Z.
Qed.

Lemma run_command_bare_string_witness :
  run_command usage_on_no_arguments (PStr "mri_surf2vol") (boot usage_on_no_arguments tt)
  = (Raise (SystemExit "Command m exited with errors. See message above for more information."),
     after usage_on_no_arguments tt [EvSpawn ["mri_surf2vol"]])
  /\ fst (run_command usage_on_no_arguments (PStr (String "195" (String "169" "cole")))
                      (boot usage_on_no_arguments tt))
     = Raise (SystemExit (exited_with_errors (String "195" (String "169" EmptyString)))).
Proof.
  split.
  - exact (run_command_bare_string usage_on_no_arguments "m" "ri_surf2vol"
             (boot usage_on_no_arguments tt) 1%Z tt eq_refl eq_refl).
  - exact (f_equal fst
             (run_command_bare_string usage_on_no_arguments "195" (String "169" "cole")
                (boot usage_on_no_arguments tt) 1%Z tt eq_refl eq_refl)).
Defined.

(** X7.  When the program of a command list cannot be started,
    [run_command] lets the [OSError] of [subprocess.run] through: it raises
    no [SystemExit], and no child process is logged. *)
Theorem run_command_cannot_start (os : OS) (argv : list string) (st : state os)
    (errno : Z) (w' : world os) :
  argv <> [] ->
  forallb (fun s => negb (PyStr.mem "000" s)) argv = true ->
  spawn os (st_world st) argv = (NotStarted errno, w') ->
  run_command os (PList (map PStr argv)) st
  = (Raise (OSError errno), after os w' (st_trace st)).
Proof.
  intros Hne N S. destruct argv as [|a argv]; [contradiction|].
  change (map PStr (a :: argv)) with (PStr a :: map PStr argv).
  rewrite run_command_list_eq.
  change (PStr a :: map PStr argv) with (map PStr (a :: argv)).
  now rewrite (fsencode_all_strings _ N), S.
Qed.

Lemma run_command_cannot_start_witness :
  run_command cannot_start (PList [PStr "mrcalc"; PStr "roi.nii.gz"]) (boot cannot_start tt)
  = (Raise (OSError 2), boot cannot_start tt).
Proof.
  refine (run_command_cannot_start cannot_start ["mrcalc"; "roi.nii.gz"]
            (boot cannot_start tt) 2%Z tt _ eq_refl eq_refl).
  discriminate.
Defined.

(** A list with an element that is not a string does not convert. *)
Lemma fsencode_all_non_string (l : list pyval) :
  existsb (fun v => negb (is_str v)) l = true -> exists e, fsencode_all l = inl e.
Proof.
  induction l as [|x l IH]; simpl; [discriminate|].
  destruct x as [|s|f|l']; simpl; eauto.
  intros H. destruct (PyStr.mem "000" s); eauto.
  destruct (IH H) as [e ->]. eauto.
Qed.

(** X8.  A command list with an element that is not a string (a number, a
    list, [None]) starts nothing: [run_command] ends in the [TypeError], or
    for an earlier string with a NUL character the [ValueError], of
    [subprocess.run], with the state as it was. *)
Theorem run_command_non_string_element (os : OS) (x : pyval) (rest : list pyval)
    (st : state os) :
  existsb (fun v => negb (is_str v)) (x :: rest) = true ->
  exists e,
    run_command os (PList (x :: rest)) st = (Raise e, st)
    /\ ((exists m, e = TypeError m) \/ (exists m, e = ValueError m)).
Proof.
  intros H. destruct (fsencode_all_non_string _ H) as [e E].
  exists e. split.
  - now rewrite run_command_list_eq, E.
  - exact (fsencode_all_error _ _ E).
Qed.

Lemma run_command_non_string_element_witness :
  exists e,
    run_command (tools_first 0)
      (PList [PStr "tck2connectome"; PStr "-assignment_forward_search"; PFloat two_point_zero])
      (boot (tools_first 0) tt)
    = (Raise e, boot (tools_first 0) tt)
    /\ ((exists m, e = TypeError m) \/ (exists m, e = ValueError m)).
Proof.
  exact (run_command_non_string_element (tools_first 0) (PStr "tck2connectome")
           [PStr "-assignment_forward_search"; PFloat two_point_zero]
           (boot (tools_first 0) tt) eq_refl).
Defined.

(** ** More on the anatomical-to-GMWMI converter *)

Lemma chosen_algorithm_cases (os : OS) (w : world os) (anat algo : string) :
  chosen_algorithm os w anat = Some algo -> algo = "hsvs" \/ algo = "fsl".
Proof.
  unfold chosen_algorithm.
  destruct (path_isdir os w _); [intros H; inversion H; now left|].
  destruct (volume_extension anat); intros H; inversion H; now right.
Qed.

(** Once an algorithm is chosen, [anat_to_gmwmi] announces it and goes
    through [gmwmi_steps]. *)
Lemma anat_to_gmwmi_chosen (os : OS) (anat outpath_base algo : string) (st : state os) :
  chosen_algorithm os (st_world st) anat = Some algo ->
  anat_to_gmwmi os anat outpath_base st
  = gmwmi_steps os algo anat outpath_base
      (after os (st_world st) (st_trace st ++ [EvPrint (banner algo)])).
Proof.
  unfold chosen_algorithm. rewrite anat_to_gmwmi_eq. cbv zeta.
  destruct (path_isdir os (st_world st) _); [intros H; now inversion H|].
  destruct (volume_extension anat); intros H; now inversion H.
Qed.

(** [gmwmi_steps] up to the end of [5ttgen]. *)
Lemma gmwmi_steps_5ttgen (os : OS) (algo anat outpath_base : string) (st : state os)
    (code : Z) (w1 : world os) :
  algo = "hsvs" \/ algo = "fsl" ->
  PyStr.mem "000" anat = false ->
  PyStr.mem "000" outpath_base = false ->
  on_first_dir os (st_world st) "5ttgen" = true ->
  spawn os (st_world st) (fivettgen_argv algo anat outpath_base) = (Exited code, w1) ->
  let st1 := after os w1 (st_trace st ++ [EvPrint "Generating 5TT Image";
                                          EvSpawn (fivettgen_argv algo anat outpath_base)]) in
  gmwmi_steps os algo anat outpath_base st
  = if (code =? 0)%Z
    then
      bind os (print os "Generating GMWMI Image") (fun _ =>
      bind os (find_program os "5tt2gmwmi") (fun fivett2gmwmi =>
      bind os (run_command os
                 (PList [fivett2gmwmi; PStr (outpath_base ++ "5tt.nii.gz");
                         PStr (outpath_base ++ "gmwmi.nii.gz")])) (fun _ =>
      bind os (print os "Finished creating GMWMI") (fun _ =>
      ret os PNone)))) st1
    else (Raise (SystemExit (exited_with_errors "5ttgen")), st1).
Proof.
  intros Halgo Na Nb F S st1. unfold gmwmi_steps.
  rewrite (bind_ok (c := print os "Generating 5TT Image") (st := st)
                   (st' := after os (st_world st)
                             (st_trace st ++ [EvPrint "Generating 5TT Image"]))
                   (a := tt) eq_refl).
  rewrite (bind_ok (find_program_found os "5ttgen"
                      (after os (st_world st) (st_trace st ++ [EvPrint "Generating 5TT Image"]))
                      F)).
  assert (N : forallb (fun s => negb (PyStr.mem "000" s))
                (fivettgen_argv algo anat outpath_base) = true).
  { simpl. rewrite mem_append, Na, Nb. now destruct Halgo as [-> | ->]. }
  pose proof (run_command_strings os (fivettgen_argv algo anat outpath_base)
                (after os (st_world st) (st_trace st ++ [EvPrint "Generating 5TT Image"]))
                code w1 ltac:(discriminate) N S) as R.
  change (map PStr (fivettgen_argv algo anat outpath_base))
    with [PStr "5ttgen"; PStr algo; PStr anat; PStr (outpath_base ++ "5tt.nii.gz");
          PStr "-nocrop"] in R.
  simpl st_trace in R. rewrite <- app_assoc in R. simpl app in R.
  destruct (code =? 0)%Z.
  - now rewrite (bind_ok R).
  - now rewrite (bind_raise R).
Qed.

(** X9.  On an input it accepts, with both tools found and ending with
    status 0, [anat_to_gmwmi] returns [None] after exactly two child
    processes: [5ttgen] with the chosen algorithm writing [P5tt.nii.gz], and
    then [5tt2gmwmi] reading that very file and writing [Pgmwmi.nii.gz], for
    the output prefix [P]. *)
Theorem anat_to_gmwmi_completes (os : OS) (anat outpath_base algo : string)
    (st : state os) (w1 w2 : world os) :
  chosen_algorithm os (st_world st) anat = Some algo ->
  PyStr.mem "000" anat = false ->
  PyStr.mem "000" outpath_base = false ->
  on_first_dir os (st_world st) "5ttgen" = true ->
  spawn os (st_world st) (fivettgen_argv algo anat outpath_base) = (Exited 0, w1) ->
  on_first_dir os w1 "5tt2gmwmi" = true ->
  spawn os w1 (fivett2gmwmi_argv outpath_base) = (Exited 0, w2) ->
  anat_to_gmwmi os anat outpath_base st
  = (Ok PNone,
     after os w2
       (st_trace st
        ++ [EvPrint (banner algo);
            EvPrint "Generating 5TT Image";
            EvSpawn [ "5ttgen"; algo; anat; outpath_base ++ "5tt.nii.gz"; "-nocrop"];
            EvPrint "Generating GMWMI Image";
            EvSpawn ["5tt2gmwmi"; outpath_base ++ "5tt.nii.gz";
                     outpath_base ++ "gmwmi.nii.gz"];
            EvPrint "Finished creating GMWMI"])).
Proof.
  intros C Na Nb F1 S1 F2 S2.
  rewrite (anat_to_gmwmi_chosen os anat outpath_base algo st C).
  rewrite (gmwmi_steps_5ttgen os algo anat outpath_base
             (after os (st_world st) (st_trace st ++ [EvPrint (banner algo)])) 0 w1
             (chosen_algorithm_cases _ _ _ _ C) Na Nb F1 S1).
  cbv zeta. change (0 =? 0)%Z with true. cbv iota.
  match goal with
  | |- bind os (print os ?l) ?k ?s = _ =>
      rewrite (bind_ok (c := print os l) (st := s)
                 (st' := after os (st_world s) (st_trace s ++ [EvPrint l])) (a := tt) eq_refl)
  end.
  rewrite (bind_ok (find_program_found os "5tt2gmwmi" (after os w1 _) F2)).
  assert (N : forallb (fun s => negb (PyStr.mem "000" s))
                (fivett2gmwmi_argv outpath_base) = true).
  { simpl. now rewrite !mem_append, Nb. }
  match goal with
  | |- bind os (run_command os _) _ ?s = _ =>
      pose proof (run_command_strings os (fivett2gmwmi_argv outpath_base) s 0 w2
                    ltac:(discriminate) N S2) as R
  end.
  change (map PStr (fivett2gmwmi_argv outpath_base))
    with [PStr "5tt2gmwmi"; PStr (outpath_base ++ "5tt.nii.gz");
          PStr (outpath_base ++ "gmwmi.nii.gz")] in R.
  change (0 =? 0)%Z with true in R. cbv iota in R.
  rewrite (bind_ok R).
  unfold bind, print, emit, ret, after. simpl.
  now rewrite <- !app_assoc.
Qed.

Lemma anat_to_gmwmi_completes_witness :
  anat_to_gmwmi (tools_first 0) "sub-01_T1w.nii.gz" "out_" (boot (tools_first 0) tt)
  = (Ok PNone,
     after (tools_first 0) tt
       [EvPrint "T1 image detected: Using default FSL 5ttgen algorithm to generate GMWMWI";
        EvPrint "Generating 5TT Image";
        EvSpawn ["5ttgen"; "fsl"; "sub-01_T1w.nii.gz"; "out_5tt.nii.gz"; "-nocrop"];
        EvPrint "Generating GMWMI Image";
        EvSpawn ["5tt2gmwmi"; "out_5tt.nii.gz"; "out_gmwmi.nii.gz"];
        EvPrint "Finished creating GMWMI"]).
Proof.
  exact (anat_to_gmwmi_completes (tools_first 0) "sub-01_T1w.nii.gz" "out_" "fsl"
           (boot (tools_first 0) tt) tt tt
           eq_refl eq_refl eq_refl eq_refl eq_refl eq_refl eq_refl).
Defined.

(** X10.  When [5ttgen] ends with a nonzero status, [anat_to_gmwmi] stops
    there with the [SystemExit] that names [5ttgen]: [5tt2gmwmi] is not
    started and nothing more is printed. *)
Theorem anat_to_gmwmi_5ttgen_fails (os : OS) (anat outpath_base algo : string)
    (st : state os) (code : Z) (w1 : world os) :
  chosen_algorithm os (st_world st) anat = Some algo ->
  PyStr.mem "000" anat = false ->
  PyStr.mem "000" outpath_base = false ->
  on_first_dir os (st_world st) "5ttgen" = true ->
  spawn os (st_world st) (fivettgen_argv algo anat outpath_base) = (Exited code, w1) ->
  code <> 0%Z ->
  anat_to_gmwmi os anat outpath_base st
  = (Raise (SystemExit "Command 5ttgen exited with errors. See message above for more information."),
     after os w1
       (st_trace st
        ++ [EvPrint (banner algo);
            EvPrint "Generating 5TT Image";
            EvSpawn ["5ttgen"; algo; anat; outpath_base ++ "5tt.nii.gz"; "-nocrop"]])).
Proof.
  intros C Na Nb F1 S1 Hc.
  rewrite (anat_to_gmwmi_chosen os anat outpath_base algo st C).
  rewrite (gmwmi_steps_5ttgen os algo anat outpath_base
             (after os (st_world st) (st_trace st ++ [EvPrint (banner algo)])) code w1
             (chosen_algorithm_cases _ _ _ _ C) Na Nb F1 S1).
  cbv zeta. destruct (Z.eqb_spec code 0) as [|_]; [contradiction|].
  unfold after. simpl. now rewrite <- app_assoc.
Qed.

Lemma anat_to_gmwmi_5ttgen_fails_witness :
  anat_to_gmwmi (one_tool_fails "5ttgen") "sub-01_T1w.nii.gz" "out_"
                (boot (one_tool_fails "5ttgen") tt)
  = (Raise (SystemExit "Command 5ttgen exited with errors. See message above for more information."),
     after (one_tool_fails "5ttgen") tt
       [EvPrint "T1 image detected: Using default FSL 5ttgen algorithm to generate GMWMWI";
        EvPrint "Generating 5TT Image";
        EvSpawn ["5ttgen"; "fsl"; "sub-01_T1w.nii.gz"; "out_5tt.nii.gz"; "-nocrop"]]).
Proof.
  refine (anat_to_gmwmi_5ttgen_fails (one_tool_fails "5ttgen") "sub-01_T1w.nii.gz" "out_" "fsl"
            (boot (one_tool_fails "5ttgen") tt) 1%Z tt
            eq_refl eq_refl eq_refl eq_refl eq_refl _).
  discriminate.
Defined.

(** ** More on the streamline extractor *)

(** [extract_tck_mrtrix] up to the end of the assignment tool. *)
Lemma extract_tck_mrtrix_assignment (os : OS) (tck_file rois_in outpath_base : string)
    (search_dist : string) (two_rois : bool) (st : state os) (code : Z) (w1 : world os) :
  on_first_dir os (st_world st) "tck2connectome" = true ->
  forallb (fun s => negb (PyStr.mem "000" s))
          [tck_file; rois_in; outpath_base; search_dist] = true ->
  spawn os (st_world st) (tck2connectome_argv tck_file rois_in outpath_base search_dist)
  = (Exited code, w1) ->
  let st1 := after os w1
               (st_trace st ++ [EvSpawn (tck2connectome_argv tck_file rois_in outpath_base
                                                             search_dist)]) in
  extract_tck_mrtrix os tck_file rois_in outpath_base (PStr search_dist) two_rois st
  = if (code =? 0)%Z
    then
      bind os (find_program os "connectome2tck") (fun connectome2tck =>
      bind os (run_command os
                 (PList [connectome2tck; PStr tck_file;
                         PStr (outpath_base ++ "assignments.txt");
                         PStr (outpath_base ++ "extracted");
                         PStr "-nodes"; PStr (if two_rois then "1,2" else "0,1");
                         PStr "-exclusive"; PStr "-files"; PStr "single"])) (fun _ =>
      ret os PNone)) st1
    else (Raise (SystemExit (exited_with_errors "tck2connectome")), st1).
Proof.
  intros F N S st1. unfold extract_tck_mrtrix.
  rewrite (bind_ok (find_program_found os _ st F)).
  assert (N' : forallb (fun s => negb (PyStr.mem "000" s))
                 (tck2connectome_argv tck_file rois_in outpath_base search_dist) = true).
  { simpl in N |- *. repeat (apply andb_true_iff in N as [? N]).
    repeat match goal with H : negb _ = true |- _ => apply negb_true_iff in H end.
    rewrite !mem_append.
    repeat match goal with H : PyStr.mem _ _ = false |- _ => rewrite H end.
    reflexivity. }
  pose proof (run_command_strings os
                (tck2connectome_argv tck_file rois_in outpath_base search_dist)
                st code w1 ltac:(discriminate) N' S) as R.
  change (map PStr (tck2connectome_argv tck_file rois_in outpath_base search_dist))
    with [PStr "tck2connectome"; PStr tck_file; PStr rois_in;
          PStr (outpath_base ++ "connectome.txt");
          PStr "-assignment_forward_search"; PStr search_dist;
          PStr "-out_assignments"; PStr (outpath_base ++ "assignments.txt");
          PStr "-force"] in R.
  destruct (code =? 0)%Z.
  - now rewrite (bind_ok R).
  - now rewrite (bind_raise R).
Qed.

(** X11.  When the assignment tool ends with a nonzero status,
    [extract_tck_mrtrix] stops with the [SystemExit] that names
    [tck2connectome]; the filter tool is not looked up and not started. *)
Theorem extract_tck_mrtrix_assignment_fails (os : OS)
    (tck_file rois_in outpath_base search_dist : string) (two_rois : bool)
    (st : state os) (code : Z) (w1 : world os) :
  on_first_dir os (st_world st) "tck2connectome" = true ->
  forallb (fun s => negb (PyStr.mem "000" s))
          [tck_file; rois_in; outpath_base; search_dist] = true ->
  spawn os (st_world st) (tck2connectome_argv tck_file rois_in outpath_base search_dist)
  = (Exited code, w1) ->
  code <> 0%Z ->
  extract_tck_mrtrix os tck_file rois_in outpath_base (PStr search_dist) two_rois st
  = (Raise (SystemExit
              "Command tck2connectome exited with errors. See message above for more information."),
     after os w1
       (st_trace st
        ++ [EvSpawn (tck2connectome_argv tck_file rois_in outpath_base search_dist)])).
Proof.
  intros F N S Hc.
  rewrite (extract_tck_mrtrix_assignment os _ _ _ _ two_rois st code w1 F N S).
  cbv zeta. now destruct (Z.eqb_spec code 0).
Qed.

Lemma extract_tck_mrtrix_assignment_fails_witness :
  extract_tck_mrtrix (one_tool_fails "tck2connectome") "T.tck" "R.nii.gz" "out_"
                     (PStr "2.0") true (boot (one_tool_fails "tck2connectome") tt)
  = (Raise (SystemExit
              "Command tck2connectome exited with errors. See message above for more information."),
     after (one_tool_fails "tck2connectome") tt
       [EvSpawn ["tck2connectome"; "T.tck"; "R.nii.gz"; "out_connectome.txt";
                 "-assignment_forward_search"; "2.0"; "-out_assignments";
                 "out_assignments.txt"; "-force"]]).
Proof.
  refine (extract_tck_mrtrix_assignment_fails (one_tool_fails "tck2connectome")
            "T.tck" "R.nii.gz" "out_" "2.0" true
            (boot (one_tool_fails "tck2connectome") tt) 1%Z tt eq_refl eq_refl eq_refl _).
  discriminate.
Defined.

(** X12.  After an assignment stage that ended with status 0, with the
    filter tool found and started, [extract_tck_mrtrix] returns [None] when
    the filter tool ends with status 0 and raises the [SystemExit] naming
    [connectome2tck] otherwise; either way both tools ran, in that order, the
    filter tool in the world the assignment tool left. *)
Theorem extract_tck_mrtrix_result (os : OS)
    (tck_file rois_in outpath_base search_dist : string) (two_rois : bool)
    (st : state os) (w1 w2 : world os) (code : Z) :
  let nodes := if two_rois then "1,2" else "0,1" in
  on_first_dir os (st_world st) "tck2connectome" = true ->
  forallb (fun s => negb (PyStr.mem "000" s))
          [tck_file; rois_in; outpath_base; search_dist] = true ->
  spawn os (st_world st) (tck2connectome_argv tck_file rois_in outpath_base search_dist)
  = (Exited 0, w1) ->
  on_first_dir os w1 "connectome2tck" = true ->
  spawn os w1 (connectome2tck_argv tck_file outpath_base nodes) = (Exited code, w2) ->
  extract_tck_mrtrix os tck_file rois_in outpath_base (PStr search_dist) two_rois st
  = (if (code =? 0)%Z then Ok PNone
     else Raise (SystemExit (exited_with_errors "connectome2tck")),
     after os w2
       (st_trace st
        ++ [EvSpawn (tck2connectome_argv tck_file rois_in outpath_base search_dist);
            EvSpawn (connectome2tck_argv tck_file outpath_base nodes)])).
Proof.
  intros nodes F1 N S1 F2 S2.
  rewrite (extract_tck_mrtrix_assignment os _ _ _ _ two_rois st 0 w1 F1 N S1).
  cbv zeta. change (0 =? 0)%Z with true. cbv iota.
  rewrite (bind_ok (find_program_found os "connectome2tck" (after os w1 _) F2)).
  assert (N' : forallb (fun s => negb (PyStr.mem "000" s))
                 (connectome2tck_argv tck_file outpath_base nodes) = true).
  { simpl in N |- *. repeat (apply andb_true_iff in N as [? N]).
    repeat match goal with H : negb _ = true |- _ => apply negb_true_iff in H end.
    rewrite !mem_append.
    repeat match goal with H : PyStr.mem _ _ = false |- _ => rewrite H end.
    unfold nodes. now destruct two_rois. }
  match goal with
  | |- bind os (run_command os _) _ ?s = _ =>
      pose proof (run_command_strings os (connectome2tck_argv tck_file outpath_base nodes)
                    s code w2 ltac:(discriminate) N' S2) as R
  end.
  change (map PStr (connectome2tck_argv tck_file outpath_base nodes))
    with [PStr "connectome2tck"; PStr tck_file; PStr (outpath_base ++ "assignments.txt");
          PStr (outpath_base ++ "extracted"); PStr "-nodes"; PStr nodes;
          PStr "-exclusive"; PStr "-files"; PStr "single"] in R.
  simpl st_trace in R. rewrite <- app_assoc in R. simpl app in R.
  fold nodes.
  destruct (code =? 0)%Z.
  - now rewrite (bind_ok R).
  - now rewrite (bind_raise R).
Qed.

Lemma extract_tck_mrtrix_result_witness :
  extract_tck_mrtrix (one_tool_fails "connectome2tck") "T.tck" "R.nii.gz" "out_"
                     (PStr "2.0") true (boot (one_tool_fails "connectome2tck") tt)
  = (Raise (SystemExit
              "Command connectome2tck exited with errors. See message above for more information."),
     after (one_tool_fails "connectome2tck") tt
       [EvSpawn ["tck2connectome"; "T.tck"; "R.nii.gz"; "out_connectome.txt";
                 "-assignment_forward_search"; "2.0"; "-out_assignments";
                 "out_assignments.txt"; "-force"];
        EvSpawn ["connectome2tck"; "T.tck"; "out_assignments.txt"; "out_extracted";
                 "-nodes"; "1,2"; "-exclusive"; "-files"; "single"]]).
Proof.
  exact (extract_tck_mrtrix_result (one_tool_fails "connectome2tck")
           "T.tck" "R.nii.gz" "out_" "2.0" true
           (boot (one_tool_fails "connectome2tck") tt) tt tt 1%Z
           eq_refl eq_refl eq_refl eq_refl eq_refl).
Defined.

(** ** More on the ROI dilator *)










Lemma getitem_last_ok {A} (os : OS) (l : list A) (x : A) (r : list A) (st : state os) :
  rev l = x :: r -> getitem_last os l st = (Ok x, st).
Proof. unfold getitem_last. now intros ->. Qed.

Lemma split_last_exists (sep : ascii) (s : string) :
  exists x r, rev (PyStr.split sep s) = x :: r.
Proof.
  destruct (rev (PyStr.split sep s)) as [|x r] eqn:E; [|eauto].
  apply (f_equal (@rev string)) in E. rewrite rev_involutive in E.
  now apply split_not_nil in E.
Qed.

(** The last two statements of [dilate_roi]: at most one child process,
    [mri_surf2vol] without arguments. *)
Lemma surf2vol_tail_log (os : OS) (st : state os) :
  exists rest,
    st_trace (snd (bind os (find_program os "mri_surf2vol") (fun mri_surf2vol =>
                   bind os (run_command os mri_surf2vol) (fun _ => ret os PNone)) st))
    = (st_trace st ++ rest)%list
    /\ (rest = [] \/ rest = [EvSpawn ["mri_surf2vol"]]).
Proof.
  run_find.
  - destruct (run_command os (PStr "mri_surf2vol") st) as [[v|e] s'] eqn:R;
      [rewrite (bind_ok R) | rewrite (bind_raise R)];
      rewrite run_command_str_eq in R; cbn [fsencode_all PyStr.mem] in R; simpl in R;
      destruct (spawn os (st_world st) ["mri_surf2vol"]) as [[code|errno] w'];
      try destruct (code =? 0)%Z; inversion R; subst; simpl;
      first [ exists [EvSpawn ["mri_surf2vol"]]; split; [reflexivity | now right]
            | exists []; split; [now rewrite app_nil_r | now left] ].
  - exists []; split; [simpl; now rewrite app_nil_r | now left].
Qed.

(** The last component of [p.e] is [e], and a name without a dot is its own
    last component. *)
Lemma extension_suffix (p e : string) :
  PyStr.mem "." e = false -> extension (p ++ String "." e) = Some e.
Proof. intros H. unfold extension. now rewrite (split_last _ _ _ H). Qed.

Lemma extension_bare (e : string) : PyStr.mem "." e = false -> extension e = Some e.
Proof. intros H. unfold extension. now rewrite (split_no_sep _ _ H). Qed.

(** X13.  A ROI whose last dot-separated component is [label] or [mgz],
    the bare names [label] and [mgz] included, is taken as a surface ROI:
    [dilate_roi] announces it and never starts [mri_vol2surf]; the only child
    process it can start is [mri_surf2vol], without arguments. *)
Theorem dilate_roi_surface_input (os : OS) (roi_in fs_dir hemi outpath_base : string)
    (st : state os) :
  extension roi_in = Some "label" \/ extension roi_in = Some "mgz" ->
  exists rest,
    st_trace (snd (dilate_roi os roi_in fs_dir hemi outpath_base st))
    = (st_trace st ++ EvPrint "Starting with surface ROI" :: rest)%list
    /\ (rest = [] \/ rest = [EvSpawn ["mri_surf2vol"]]).
Proof.
  intros He.
  assert (exists e r, rev (PyStr.split "." roi_in) = e :: r
                      /\ negb (String.eqb e "label") && negb (String.eqb e "mgz") = false)
    as (e & r' & Hr & Hcond).
  { unfold extension in He.
    destruct (rev (PyStr.split "." roi_in)) as [|e r']; [destruct He; discriminate|].
    exists e, r'. split; [reflexivity|].
    destruct He as [He | He]; injection He as ->; reflexivity. }
  unfold dilate_roi.
  destruct (split_last_exists "/" fs_dir) as (subject & r & Hs).
  rewrite (bind_ok (getitem_last_ok os _ _ _ st Hs)).
  rewrite (bind_ok (getitem_last_ok os _ _ _ st Hr)).
  rewrite Hcond.
  match goal with
  | |- context [bind os ?c ?k st] =>
      rewrite (bind_ok (c := c) (k := k) (st := st)
                 (st' := after os (st_world st)
                           (st_trace st ++ [EvPrint "Starting with surface ROI"]))
                 (a := roi_in) eq_refl)
  end.
  cbv zeta.
  destruct (surf2vol_tail_log os
              (after os (st_world st) (st_trace st ++ [EvPrint "Starting with surface ROI"])))
    as (rest & E & Hrest).
  exists rest. split; [|exact Hrest].
  rewrite E. simpl. now rewrite <- app_assoc.
Qed.

Lemma dilate_roi_surface_input_witness :
  (extension "lh.V1.label" = Some "label"
   /\ exists rest,
        st_trace (snd (dilate_roi (tools_first 0) "lh.V1.label" "/subjects/sub-01" "lh" "out_"
                                  (boot (tools_first 0) tt)))
        = EvPrint "Starting with surface ROI" :: rest
        /\ (rest = [] \/ rest = [EvSpawn ["mri_surf2vol"]]))
  /\ (extension "mgz" = Some "mgz"
      /\ exists rest,
           st_trace (snd (dilate_roi (tools_first 0) "mgz" "/subjects/sub-01" "lh" "out_"
                                     (boot (tools_first 0) tt)))
           = EvPrint "Starting with surface ROI" :: rest
           /\ (rest = [] \/ rest = [EvSpawn ["mri_surf2vol"]])).
Proof.
  split; (split; [reflexivity|]).
  - exact (dilate_roi_surface_input (tools_first 0) "lh.V1.label" "/subjects/sub-01" "lh"
             "out_" (boot (tools_first 0) tt) (or_introl eq_refl)).
  - exact (dilate_roi_surface_input (tools_first 0) "mgz" "/subjects/sub-01" "lh"
             "out_" (boot (tools_first 0) tt) (or_intror eq_refl)).
Defined.





(** ** More on the ROI merger and the GMWMI intersector *)

(** A suffix that is not there is not removed. *)
Lemma removesuffix_absent (s suffix : string) :
  ~ ends_in s suffix -> PyStr.removesuffix s suffix = s.
Proof.
  intros H. unfold PyStr.removesuffix, PyStr.endswith.
  destruct (negb _ && (_ && _)) eqn:E; [|reflexivity].
  apply andb_true_iff in E as [_ E]. apply andb_true_iff in E as [_ E].
  exfalso. apply H. now apply slice_last_ends_in.
Qed.

(** [merge_rois] with [mrcalc] found and started: one child process, the
    multiplication, and then an exception. *)
Lemma merge_rois_run (os : OS) (roi1 roi2 outpath_base : string) (st : state os)
    (code : Z) (w' : world os) :
  on_first_dir os (st_world st) "mrcalc" = true ->
  PyStr.mem "000" roi2 = false ->
  spawn os (st_world st) (mrcalc_mult2_argv roi2) = (Exited code, w') ->
  merge_rois os roi1 roi2 outpath_base st
  = (if (code =? 0)%Z then Raise (NameError "out_file")
     else Raise (SystemExit (exited_with_errors "mrcalc")),
     after os w' (st_trace st ++ [EvSpawn (mrcalc_mult2_argv roi2)])).
Proof.
  intros F N S. unfold merge_rois.
  rewrite (bind_ok (find_program_found os _ st F)).
  assert (N' : forallb (fun s => negb (PyStr.mem "000" s)) (mrcalc_mult2_argv roi2) = true).
  { simpl. now rewrite mem_append, (mem_removesuffix _ _ _ N), N. }
  pose proof (run_command_strings os (mrcalc_mult2_argv roi2) st code w'
                ltac:(discriminate) N' S) as R.
  change (map PStr (mrcalc_mult2_argv roi2))
    with [PStr "mrcalc"; PStr roi2; PStr "2"; PStr "-mult";
          PStr (PyStr.removesuffix roi2 ".nii.gz" ++ "_labelled.nii.gz")] in R.
  destruct (code =? 0)%Z.
  - now rewrite (bind_ok R).
  - now rewrite (bind_raise R).
Qed.

(** X15.  The intermediate of [merge_rois] is named after the second mask:
    for a mask [p.nii.gz] it is [p_labelled.nii.gz]; for a mask with any
    other ending, such as [.nii] or [.mif], nothing is removed and the
    intermediate is the whole name followed by [_labelled.nii.gz].  In both
    cases the multiplication [mrcalc roi2 2 -mult intermediate] is the one
    child process of the call. *)
Theorem merge_rois_intermediate_name (os : OS) (roi1 roi2 outpath_base : string)
    (st : state os) (code : Z) (w' : world os) :
  on_first_dir os (st_world st) "mrcalc" = true ->
  PyStr.mem "000" roi2 = false ->
  (forall p,
      roi2 = p ++ ".nii.gz" ->
      spawn os (st_world st) ["mrcalc"; roi2; "2"; "-mult"; p ++ "_labelled.nii.gz"]
      = (Exited code, w') ->
      st_trace (snd (merge_rois os roi1 roi2 outpath_base st))
      = (st_trace st
         ++ [EvSpawn ["mrcalc"; roi2; "2"; "-mult"; (p ++ "_labelled.nii.gz")%string]])%list)
  /\ (~ ends_in roi2 ".nii.gz" ->
      spawn os (st_world st) ["mrcalc"; roi2; "2"; "-mult"; roi2 ++ "_labelled.nii.gz"]
      = (Exited code, w') ->
      st_trace (snd (merge_rois os roi1 roi2 outpath_base st))
      = (st_trace st
         ++ [EvSpawn ["mrcalc"; roi2; "2"; "-mult"; (roi2 ++ "_labelled.nii.gz")%string]])%list).
Proof.
  intros F N. split.
  - intros p -> S.
    assert (E : mrcalc_mult2_argv (p ++ ".nii.gz")
                = ["mrcalc"; p ++ ".nii.gz"; "2"; "-mult"; p ++ "_labelled.nii.gz"]).
    { unfold mrcalc_mult2_argv. now rewrite labelled_name. }
    rewrite <- E in S. rewrite (merge_rois_run os _ _ _ st code w' F N S). now rewrite E.
  - intros H S.
    assert (E : mrcalc_mult2_argv roi2
                = ["mrcalc"; roi2; "2"; "-mult"; roi2 ++ "_labelled.nii.gz"]).
    { unfold mrcalc_mult2_argv. now rewrite (removesuffix_absent _ _ H). }
    rewrite <- E in S. rewrite (merge_rois_run os _ _ _ st code w' F N S). now rewrite E.
Qed.

Lemma merge_rois_intermediate_name_witness :
  st_trace (snd (merge_rois (tools_first 0) "R1.mif" "R2.mif" "out_" (boot (tools_first 0) tt)))
  = [EvSpawn ["mrcalc"; "R2.mif"; "2"; "-mult"; "R2.mif_labelled.nii.gz"]]
  /\ st_trace (snd (merge_rois (tools_first 0) "R1.nii.gz" "R2.nii.gz" "out_"
                               (boot (tools_first 0) tt)))
     = [EvSpawn ["mrcalc"; "R2.nii.gz"; "2"; "-mult"; "R2_labelled.nii.gz"]].
Proof.
  split.
  - refine (proj2 (merge_rois_intermediate_name (tools_first 0) "R1.mif" "R2.mif" "out_"
                     (boot (tools_first 0) tt) 0%Z tt eq_refl eq_refl) _ eq_refl).
    intros H. apply slice_last_ends_in in H. vm_compute in H. discriminate H.
  - exact (proj1 (merge_rois_intermediate_name (tools_first 0) "R1.nii.gz" "R2.nii.gz" "out_"
                    (boot (tools_first 0) tt) 0%Z tt eq_refl eq_refl) "R2" eq_refl eq_refl).
Defined.

(** X16.  On no machine and for no input does [merge_rois] or
    [intersect_gmwmi] return: each call ends in an exception.
    [intersect_gmwmi] leaves the state as it was, so it starts no process at
    all. *)
Theorem mrcalc_wrappers_never_return (os : OS) (a b outpath_base : string)
    (st : state os) (v : pyval) :
  fst (merge_rois os a b outpath_base st) <> Ok v
  /\ fst (intersect_gmwmi os a b outpath_base st) <> Ok v
  /\ snd (intersect_gmwmi os a b outpath_base st) = st.
Proof.
  destruct (merge_rois_never_adds os a b outpath_base st) as (e & st' & -> & _).
  destruct (intersect_gmwmi_never_runs os a b outpath_base st) as (e' & ->).
  repeat split; discriminate.
Qed.

(** X17.  When the tool a function starts with is not executable in the
    first directory of the search path, [merge_rois], [intersect_gmwmi] and
    [extract_tck_mrtrix] start nothing, and the exception the caller sees is
    the [NameError] of [function_name] raised inside [find_program]. *)
Theorem missing_tool_starts_nothing (os : OS) (p : string) (st : state os) :
  environ os "PATH" = Some p ->
  (on_first_dir os (st_world st) "mrcalc" = false ->
   forall a b outpath_base,
     merge_rois os a b outpath_base st = (Raise (NameError "function_name"), st)
     /\ intersect_gmwmi os a b outpath_base st = (Raise (NameError "function_name"), st))
  /\ (on_first_dir os (st_world st) "tck2connectome" = false ->
      forall tck_file rois_in outpath_base search_dist two_rois,
        extract_tck_mrtrix os tck_file rois_in outpath_base search_dist two_rois st
        = (Raise (NameError "function_name"), st)).
Proof.
  intros E. split.
  - intros H a b outpath_base.
    pose proof (find_program_first_miss os "mrcalc" st p E H) as F.
    split; [unfold merge_rois | unfold intersect_gmwmi]; apply (bind_raise F).
  - intros H tck_file rois_in outpath_base search_dist two_rois.
    pose proof (find_program_first_miss os "tck2connectome" st p E H) as F.
    unfold extract_tck_mrtrix. apply (bind_raise F).
Qed.

Lemma missing_tool_starts_nothing_witness :
  on_some_dir mrtrix_second tt "mrcalc" = true
  /\ merge_rois mrtrix_second "R1.nii.gz" "R2.nii.gz" "out_" (boot mrtrix_second tt)
     = (Raise (NameError "function_name"), boot mrtrix_second tt).
Proof.
  split; [reflexivity|].
  exact (proj1 (proj1 (missing_tool_starts_nothing mrtrix_second "/usr/local/bin:/usr/bin"
                         (boot mrtrix_second tt) eq_refl) eq_refl
                      "R1.nii.gz" "R2.nii.gz" "out_")).
Defined.

(** ** Which processes the module starts *)

Lemma logs_isdir (os : OS) (P : event -> Prop) (p : string) : logs_only P (isdir os p).
Proof. intros st; exists []; simpl; now rewrite app_nil_r. Qed.

(** What follows the reading of an unbound name is not run. *)
Lemma logs_bind_unbound {B} (os : OS) (P : event -> Prop) (name : string)
    (k : pyval -> M os B) :
  logs_only P (bind os (unbound_name os name) k).
Proof. intros st; exists []; simpl; now rewrite app_nil_r. Qed.

(** A command list that starts with the name of a tool starts that tool. *)
Lemma starts_named_tool (tool : string) (rest : list pyval) (argv : list string) :
  In tool tools ->
  popen_args (PList (PStr tool :: rest)) = inr argv ->
  starts_tool_by_name (EvSpawn argv).
Proof.
  intros Hin E a Ha. injection Ha as <-.
  rewrite popen_args_cons in E.
  apply fsencode_all_cons in E as (name & argv' & Hx & -> & _).
  injection Hx as <-. now exists tool.
Qed.

(** X18.  Every child process the five pipeline functions start, on any
    machine and for any arguments, is one of the seven tools, started under
    its bare name: the first element of the argument vector is the name that
    was handed to [find_program], never the path of the file [find_program]
    tested. *)
Theorem pipeline_starts_only_tools (os : OS) :
  (forall roi1 roi2 outpath_base,
      logs_only starts_tool_by_name (merge_rois os roi1 roi2 outpath_base))
  /\ (forall anat outpath_base,
         logs_only starts_tool_by_name (anat_to_gmwmi os anat outpath_base))
  /\ (forall tck_file rois_in outpath_base search_dist two_rois,
         logs_only starts_tool_by_name
           (extract_tck_mrtrix os tck_file rois_in outpath_base search_dist two_rois))
  /\ (forall roi_in fs_dir hemi outpath_base,
         logs_only starts_tool_by_name (dilate_roi os roi_in fs_dir hemi outpath_base))
  /\ (forall rois_in gmwmi outpath_base,
         logs_only starts_tool_by_name (intersect_gmwmi os rois_in gmwmi outpath_base)).
Proof.
  assert (Hprint : forall line, starts_tool_by_name (EvPrint line))
    by (intros line argv E; discriminate E).
  repeat split; intros.
  - unfold merge_rois.
    repeat first
      [ apply logs_bind_unbound | apply logs_ret | apply logs_bind_find
      | apply logs_run_command | apply logs_bind; [|intros ?] ].
    all: intros argv E; refine (starts_named_tool _ _ _ _ E); simpl; tauto.
  - unfold anat_to_gmwmi.
    repeat first
      [ apply logs_isdir | apply logs_ret | apply logs_raise | apply logs_print
      | apply logs_bind_find | apply logs_run_command
      | match goal with |- logs_only _ (if ?b then _ else _) => destruct b end
      | apply logs_bind; [|intros ?] ].
    all: try apply Hprint.
    all: intros argv E; refine (starts_named_tool _ _ _ _ E); simpl; tauto.
  - unfold extract_tck_mrtrix. log_steps.
    all: intros argv E; refine (starts_named_tool _ _ _ _ E); simpl; tauto.
  - unfold dilate_roi. log_steps.
    all: try apply Hprint.
    + intros argv E; refine (starts_named_tool _ _ _ _ E); simpl; tauto.
    + intros argv E av Ha. injection Ha as <-. vm_compute in E. injection E as <-.
      exists "mri_surf2vol". split; [simpl; tauto | reflexivity].
  - unfold intersect_gmwmi.
    repeat first
      [ apply logs_bind_unbound | apply logs_bind_find ].
Qed.
